(** * Financial Assessment Chat: the page component of [src/app/page.tsx]

    A shallow embedding of the [Chat] component: its state hooks, the two
    asynchronous handlers [handleSubmit] and [generatePersona], the score
    aggregation [getLatestTraitScores] and the parts of the rendered view
    that gate user actions.

    Conventions of the embedding.
    - A JavaScript [number] is an exact rational ([Q]); [undefined] is [None].
    - A [Date] is its millisecond count ([Z]); every clock reading the code
      makes ([Date.now()], [new Date()]) is an argument of the handler.
    - An [async] handler is split at its [await]: a [_begin] part that runs
      when the event fires and a [_resume] part that runs when the network
      call settles.  The [_resume] part receives both the [chatState] its
      closure captured and the component state current at that time, as the
      functional updates [setChatState((prev) => ...)] do.
    - A string is a sequence of ASCII characters.
    - The decoded JSON body is typed as the code reads it: the six traits,
      four optional arrays each. *)

From Stdlib Require Import List String Ascii ZArith QArith Bool Lia Lqa DecimalString.
Import ListNotations.

Set Implicit Arguments.

(** ** JavaScript primitives used by the page *)

Module Js.

(** [String.prototype.trim] on the white space of the ASCII range:
    TAB, LF, VT, FF, CR and SPACE. *)
Definition isWhiteSpace (c : ascii) : bool :=
  let n := N_of_ascii c in
  ((9 <=? n) && (n <=? 13) || (n =? 32))%N.

Fixpoint trimStart (s : string) : string :=
  match s with
  | EmptyString => EmptyString
  | String c s' => if isWhiteSpace c then trimStart s' else s
  end.

Fixpoint trimEnd (s : string) : string :=
  match s with
  | EmptyString => EmptyString
  | String c s' =>
      let r := trimEnd s' in
      if isWhiteSpace c && (r =? EmptyString)%string then EmptyString else String c r
  end.

Definition trim (s : string) : string := trimEnd (trimStart s).

(** [n.toString()] for an integral number. *)
Definition toString (n : Z) : string := NilZero.string_of_int (Z.to_int n).

(** Truthiness of a string and of a number that may be [undefined]. *)
Definition truthyString (s : option string) : bool :=
  match s with
  | Some s => negb (s =? EmptyString)%string
  | None => false
  end.

Definition truthyNumber (n : option Q) : bool :=
  match n with
  | Some q => negb (Qeq_bool q 0)
  | None => false
  end.

Definition isDefined {A : Type} (x : option A) : bool :=
  match x with
  | Some _ => true
  | None => false
  end.

(** [x || d] for a number. *)
Definition orNumber (x : option Q) (d : Q) : Q :=
  match x with
  | Some q => if Qeq_bool q 0 then d else q
  | None => d
  end.

(** [a || []]: an array is always truthy, only [undefined] is replaced. *)
Definition orEmpty {A : Type} (a : option (list A)) : list A :=
  match a with
  | Some l => l
  | None => []
  end.

(** [a[i]]: [undefined] outside the array. *)
Definition index {A : Type} (a : list A) (i : nat) : option A := nth_error a i.

(** A value caught by [catch (error)]: an [Error] instance with its
    [message], or any other value with its [String(error)] rendering. *)
Inductive Thrown : Type :=
| ErrorInstance (message : string)
| OtherValue (rendered : string).

(** What [await fetch(...)] followed by [await response.json()] can do:
    the fetch promise rejects (transport failure), or it resolves with a
    status and a body whose decoding throws or yields a value. *)
Inductive Fetched (A : Type) : Type :=
| Rejected (error : Thrown)
| Resolved (status : Z) (json : Thrown + A).

Arguments Rejected {A} error.
Arguments Resolved {A} status json.

(** [response.ok]: the status is in the range 200-299. *)
Definition ok (status : Z) : bool := ((200 <=? status) && (status <=? 299))%Z.

End Js.

(** ** Data model *)

(** The list [traits] of the component, one constructor per identifier. *)
Inductive Trait : Type :=
| awareness
| self_control
| preparedness
| information_seeking
| risk_seeking
| reaction_to_external_events.

Definition traits : list Trait :=
  [ awareness; self_control; preparedness; information_seeking;
    risk_seeking; reaction_to_external_events ].

(** [a === b] on trait names. *)
Definition Trait_eqb (a b : Trait) : bool :=
  match a, b with
  | awareness, awareness
  | self_control, self_control
  | preparedness, preparedness
  | information_seeking, information_seeking
  | risk_seeking, risk_seeking
  | reaction_to_external_events, reaction_to_external_events => true
  | _, _ => false
  end.

Inductive MessageType : Type := user | ai.

Module Message.
Record t : Type := Build
  { id : string;
    type : MessageType;
    content : option string;   (* [undefined] when the persona is absent *)
    timestamp : Z }.
End Message.

Module TraitData.
Record t : Type := Build
  { trait : Trait;
    score : option Q;
    confidence : option Q;
    sentence : option string;
    rationale : option string;
    timestamp : option Z }.
End TraitData.

(** [data.updated_state] of a chat response, which is also the backend state
    stored and echoed back. *)
Module UpdatedState.
Record t : Type := Build
  { continue_conversation : bool;
    persona : option string;
    current_priority : option string;
    current_iteration : option Q;
    trait_score : Trait -> option (list Q);
    trait_confidence : Trait -> option (list Q);
    trait_sentences : Trait -> option (list string);
    trait_rationale : Trait -> option (list string) }.
End UpdatedState.

(** The decoded body of a [/chat] response. *)
Module ChatData.
Record t : Type := Build
  { response : string;
    updated_state : UpdatedState.t }.
End ChatData.

(** The decoded body of a [/persona] response. *)
Module PersonaData.
Record t : Type := Build { response : string }.
End PersonaData.

Module ChatState.
Record t : Type := Build
  { messages : list Message.t;
    traitData : list TraitData.t;
    currentPriority : option string;
    currentIteration : option Q;
    backendState : option UpdatedState.t }.
End ChatState.

(** The state hooks of the component. *)
Module Chat.
Record t : Type := Build
  { userId : option string;
    sessionId : option string;
    input : string;
    isLoading : bool;
    showPersonaPopup : bool;
    personaData : string;
    isGeneratingPersona : bool;
    isTerminated : bool;
    chatState : ChatState.t;
    shouldContinue : bool }.

(** The initial values given to [useState]. *)
Definition initial : t :=
  {| userId := None;
     sessionId := None;
     input := EmptyString;
     isLoading := false;
     showPersonaPopup := false;
     personaData := EmptyString;
     isGeneratingPersona := false;
     isTerminated := false;
     chatState :=
       {| ChatState.messages := [];
          ChatState.traitData := [];
          ChatState.currentPriority := None;
          ChatState.currentIteration := None;
          ChatState.backendState := None |};
     shouldContinue := true |}.
End Chat.


(** The setters returned by [useState], as state transformers. *)
Module Setters.
Import Chat.

Definition setUserId (v : option string) (c : t) : t :=
  Build v (sessionId c) (input c) (isLoading c) (showPersonaPopup c)
    (personaData c) (isGeneratingPersona c) (isTerminated c) (chatState c)
    (shouldContinue c).

Definition setSessionId (v : option string) (c : t) : t :=
  Build (userId c) v (input c) (isLoading c) (showPersonaPopup c)
    (personaData c) (isGeneratingPersona c) (isTerminated c) (chatState c)
    (shouldContinue c).

Definition setInput (v : string) (c : t) : t :=
  Build (userId c) (sessionId c) v (isLoading c) (showPersonaPopup c)
    (personaData c) (isGeneratingPersona c) (isTerminated c) (chatState c)
    (shouldContinue c).

Definition setIsLoading (v : bool) (c : t) : t :=
  Build (userId c) (sessionId c) (input c) v (showPersonaPopup c)
    (personaData c) (isGeneratingPersona c) (isTerminated c) (chatState c)
    (shouldContinue c).

Definition setShowPersonaPopup (v : bool) (c : t) : t :=
  Build (userId c) (sessionId c) (input c) (isLoading c) v
    (personaData c) (isGeneratingPersona c) (isTerminated c) (chatState c)
    (shouldContinue c).

Definition setPersonaData (v : string) (c : t) : t :=
  Build (userId c) (sessionId c) (input c) (isLoading c) (showPersonaPopup c)
    v (isGeneratingPersona c) (isTerminated c) (chatState c)
    (shouldContinue c).

Definition setIsGeneratingPersona (v : bool) (c : t) : t :=
  Build (userId c) (sessionId c) (input c) (isLoading c) (showPersonaPopup c)
    (personaData c) v (isTerminated c) (chatState c) (shouldContinue c).

Definition setIsTerminated (v : bool) (c : t) : t :=
  Build (userId c) (sessionId c) (input c) (isLoading c) (showPersonaPopup c)
    (personaData c) (isGeneratingPersona c) v (chatState c) (shouldContinue c).

(** [setChatState((prev) => f(prev))]. *)
Definition setChatState (f : ChatState.t -> ChatState.t) (c : t) : t :=
  Build (userId c) (sessionId c) (input c) (isLoading c) (showPersonaPopup c)
    (personaData c) (isGeneratingPersona c) (isTerminated c) (f (chatState c))
    (shouldContinue c).

Definition setShouldContinue (v : bool) (c : t) : t :=
  Build (userId c) (sessionId c) (input c) (isLoading c) (showPersonaPopup c)
    (personaData c) (isGeneratingPersona c) (isTerminated c) (chatState c) v.

End Setters.

(** ** [getLatestTraitScores] *)

Module Aggregate.
Record t : Type := Build
  { totalScore : Q;
    totalConfidence : Q;
    count : nat }.
End Aggregate.

Module TraitScore.
Record t : Type := Build
  { trait : Trait;
    score : Q;
    confidence : Q }.
End TraitScore.

(** The object [traitAggregates]: its own properties in insertion order,
    the order in which [Object.entries] lists them. *)
Definition Aggregates : Type := list (Trait * Aggregate.t).

(** [traitAggregates[trait]]. *)
Fixpoint lookup (trait : Trait) (o : Aggregates) : option Aggregate.t :=
  match o with
  | [] => None
  | (k, v) :: o' => if Trait_eqb k trait then Some v else lookup trait o'
  end.

(** An update of the object stored under [trait], in place. *)
Fixpoint adjust (f : Aggregate.t -> Aggregate.t) (trait : Trait)
    (o : Aggregates) : Aggregates :=
  match o with
  | [] => []
  | (k, v) :: o' =>
      if Trait_eqb k trait then (k, f v) :: o'
      else (k, v) :: adjust f trait o'
  end.

(** The body of [chatState.traitData.forEach((data) => ...)]. *)
Definition accumulate (traitAggregates : Aggregates) (data : TraitData.t)
    : Aggregates :=
  match TraitData.score data with
  | None => traitAggregates
  | Some score =>
      let trait := TraitData.trait data in
      let created :=
        if Js.isDefined (lookup trait traitAggregates) then traitAggregates
        else traitAggregates ++ [(trait, Aggregate.Build 0 0 0)] in
      adjust
        (fun a =>
           Aggregate.Build
             (Aggregate.totalScore a + score)
             (Aggregate.totalConfidence a
              + Js.orNumber (TraitData.confidence data) 0)
             (Aggregate.count a + 1))
        trait created
  end.

(** A [number] holding a count. *)
Definition number_of_nat (n : nat) : Q := inject_Z (Z.of_nat n).

Definition getLatestTraitScores (chatState : ChatState.t) : list TraitScore.t :=
  let traitAggregates :=
    fold_left accumulate (ChatState.traitData chatState) [] in
  map
    (fun '(trait, aggregate) =>
       TraitScore.Build trait
         (Aggregate.totalScore aggregate
          / number_of_nat (Aggregate.count aggregate))
         (Aggregate.totalConfidence aggregate
          / number_of_nat (Aggregate.count aggregate)))
    traitAggregates.

(** ** [handleSubmit] *)

(** The clock readings of one run of a handler part, in program order:
    [Date.now()] for the message id, [new Date()] for the message timestamp
    and [new Date()] for [currentTime]. *)
Module Clock.
Record t : Type := Build
  { now : Z;
    stamp : Z;
    currentTime : Z }.
End Clock.

(** The body posted to [/chat]. *)
Module ChatRequest.
Record t : Type := Build
  { user_id : option string;
    session_id : option string;
    message : string;
    state : option UpdatedState.t }.
End ChatRequest.

(** The body posted to [/persona]. *)
Module PersonaRequest.
Record t : Type := Build
  { state : option UpdatedState.t;
    user_id : option string;
    session_id : option string }.
End PersonaRequest.

(** [chatState.traitData.filter((t) => t.trait === trait).length]. *)
Definition existingCount (trait : Trait) (traitData : list TraitData.t) : nat :=
  List.length (filter (fun t => Trait_eqb (TraitData.trait t) trait) traitData).

(** [Math.max(scores.length, sentences.length, rationales.length,
    confidences.length)]. *)
Definition maxLength (scores confidences : list Q)
    (sentences rationales : list string) : nat :=
  Nat.max (Nat.max (Nat.max (List.length scores) (List.length sentences))
             (List.length rationales))
    (List.length confidences).

(** The record pushed for index [i]. *)
Definition traitDataAt (trait : Trait) (scores confidences : list Q)
    (sentences rationales : list string) (i : nat) (timestamp : Z)
    : TraitData.t :=
  TraitData.Build trait (Js.index scores i) (Js.index confidences i)
    (Js.index sentences i) (Js.index rationales i) (Some timestamp).

(** [sentences[i] || scores[i] !== undefined]. *)
Definition hasSentenceOrScore (scores : list Q) (sentences : list string)
    (i : nat) : bool :=
  Js.truthyString (Js.index sentences i) || Js.isDefined (Js.index scores i).

(** [for (let i = ...; i < maxLength; i++)] with [remaining = maxLength - i]
    iterations left; [newTraitData] is the array being pushed to. *)
Fixpoint forLoop (remaining i : nat) (trait : Trait)
    (scores confidences : list Q) (sentences rationales : list string)
    (currentTime : Z) (newTraitData : list TraitData.t) : list TraitData.t :=
  match remaining with
  | O => newTraitData
  | S remaining' =>
      forLoop remaining' (S i) trait scores confidences sentences rationales
        currentTime
        (if hasSentenceOrScore scores sentences i
         then newTraitData
              ++ [traitDataAt trait scores confidences sentences rationales i
                    (currentTime + Z.of_nat (List.length newTraitData))]
         else newTraitData)
  end.

(** The body of [traits.forEach((trait) => ...)]; [captured] is the
    [chatState] of the closure. *)
Definition extractTrait (captured : ChatState.t)
    (updated_state : UpdatedState.t) (currentTime : Z)
    (newTraitData : list TraitData.t) (trait : Trait) : list TraitData.t :=
  let scores := Js.orEmpty (UpdatedState.trait_score updated_state trait) in
  let confidences :=
    Js.orEmpty (UpdatedState.trait_confidence updated_state trait) in
  let sentences :=
    Js.orEmpty (UpdatedState.trait_sentences updated_state trait) in
  let rationales :=
    Js.orEmpty (UpdatedState.trait_rationale updated_state trait) in
  let existingCount := existingCount trait (ChatState.traitData captured) in
  if (existingCount <? List.length scores)
     || (existingCount <? List.length sentences)
     || (existingCount <? List.length rationales)
  then
    let maxLength := maxLength scores confidences sentences rationales in
    forLoop (maxLength - existingCount) existingCount trait scores confidences
      sentences rationales currentTime newTraitData
  else newTraitData.

(** The array [newTraitData] once [traits.forEach] has run. *)
Definition extractNewTraitData (captured : ChatState.t)
    (updated_state : UpdatedState.t) (currentTime : Z) : list TraitData.t :=
  fold_left (extractTrait captured updated_state currentTime) traits [].

(** The message [aiMessage] as it is when it is appended. *)
Definition aiMessage (data : ChatData.t) (clock : Clock.t) : Message.t :=
  let updated_state := ChatData.updated_state data in
  Message.Build (Js.toString (Clock.now clock + 1)) ai
    (if negb (UpdatedState.continue_conversation updated_state)
     then UpdatedState.persona updated_state
     else Some (ChatData.response data))
    (Clock.stamp clock).

(** The update given to [setChatState] on the success path. *)
Definition updateChatState (captured : ChatState.t) (data : ChatData.t)
    (clock : Clock.t) (prev : ChatState.t) : ChatState.t :=
  let updated_state := ChatData.updated_state data in
  ChatState.Build
    (ChatState.messages prev ++ [aiMessage data clock])
    (ChatState.traitData prev
     ++ extractNewTraitData captured updated_state (Clock.currentTime clock))
    (UpdatedState.current_priority updated_state)
    (UpdatedState.current_iteration updated_state)
    (Some updated_state).

(** The [try] block after [await response.json()]. *)
Definition handleSubmit_success (captured : ChatState.t) (data : ChatData.t)
    (clock : Clock.t) (c : Chat.t) : Chat.t :=
  let c1 :=
    if (ChatData.response data =? "terminate")%string
    then Setters.setIsTerminated true c else c in
  let c2 :=
    if negb (UpdatedState.continue_conversation (ChatData.updated_state data))
    then Setters.setShouldContinue false c1 else c1 in
  let c3 := Setters.setChatState (updateChatState captured data clock) c2 in
  Setters.setIsLoading false c3.

(** [error instanceof Error ? error.message : String(error)]. *)
Definition describe (error : Js.Thrown) : string :=
  match error with
  | Js.ErrorInstance message => message
  | Js.OtherValue rendered => rendered
  end.

Definition newline : string := String (ascii_of_nat 10) EmptyString.

Definition errorMessage (error : Js.Thrown) (clock : Clock.t) : Message.t :=
  Message.Build (Js.toString (Clock.now clock + 1)) ai
    (Some ("I apologize, but I'm having trouble connecting right now. Please try again."
           ++ newline ++ "Error: " ++ describe error)%string)
    (Clock.stamp clock).

(** The [catch] block. *)
Definition handleSubmit_catch (error : Js.Thrown) (clock : Clock.t)
    (c : Chat.t) : Chat.t :=
  let c1 :=
    Setters.setChatState
      (fun prev =>
         ChatState.Build
           (ChatState.messages prev ++ [errorMessage error clock])
           (ChatState.traitData prev) (ChatState.currentPriority prev)
           (ChatState.currentIteration prev) (ChatState.backendState prev))
      c in
  Setters.setIsLoading false c1.

(** The part of [handleSubmit] before [await fetch]: [None] when the guard
    returns, otherwise the state after the three setters and the request. *)
Definition handleSubmit_begin (clock : Clock.t) (c : Chat.t)
    : option (Chat.t * ChatRequest.t) :=
  if (Js.trim (Chat.input c) =? EmptyString)%string || Chat.isLoading c then None
  else
    let userMessage :=
      Message.Build (Js.toString (Clock.now clock)) user
        (Some (Js.trim (Chat.input c))) (Clock.stamp clock) in
    let c1 :=
      Setters.setChatState
        (fun prev =>
           ChatState.Build (ChatState.messages prev ++ [userMessage])
             (ChatState.traitData prev) (ChatState.currentPriority prev)
             (ChatState.currentIteration prev) (ChatState.backendState prev))
        c in
    let c2 := Setters.setInput EmptyString c1 in
    let c3 := Setters.setIsLoading true c2 in
    Some (c3,
          ChatRequest.Build (Chat.userId c) (Chat.sessionId c)
            (Js.trim (Chat.input c))
            (ChatState.backendState (Chat.chatState c))).

(** The part of [handleSubmit] after the network call has settled. *)
Definition handleSubmit_resume (captured : ChatState.t)
    (fetched : Js.Fetched ChatData.t) (clock : Clock.t) (c : Chat.t) : Chat.t :=
  match fetched with
  | Js.Rejected error => handleSubmit_catch error clock c
  | Js.Resolved status json =>
      if negb (Js.ok status) then
        handleSubmit_catch
          (Js.ErrorInstance ("HTTP error! status: " ++ Js.toString status))
          clock c
      else
        match json with
        | inl error => handleSubmit_catch error clock c
        | inr data => handleSubmit_success captured data clock c
        end
  end.

(** ** [generatePersona] *)

(** What a handler part does besides setting state. *)
Inductive Effect : Type :=
| Alert (text : string)
| PostPersona (body : PersonaRequest.t)
| Nothing.

(** The part of [generatePersona] before [await fetch]. *)
Definition generatePersona_begin (c : Chat.t) : Chat.t * Effect :=
  match ChatState.backendState (Chat.chatState c) with
  | None =>
      (c, Alert "No assessment data available. Please have a conversation first.")
  | Some backendState =>
      (Setters.setIsGeneratingPersona true c,
       PostPersona
         (PersonaRequest.Build (Some backendState) (Chat.userId c)
            (Chat.sessionId c)))
  end.

(** The [try] block after [await response.json()]. *)
Definition generatePersona_success (data : PersonaData.t) (c : Chat.t)
    : Chat.t :=
  Setters.setShowPersonaPopup true
    (Setters.setIsTerminated true
       (Setters.setPersonaData (PersonaData.response data) c)).

(** The part of [generatePersona] after the network call has settled: the
    [try] or the [catch] block, then the [finally] block. *)
Definition generatePersona_resume (fetched : Js.Fetched PersonaData.t)
    (c : Chat.t) : Chat.t * Effect :=
  let failed := Alert "Failed to generate persona. Please try again." in
  let '(c1, effect) :=
    match fetched with
    | Js.Rejected _ => (c, failed)
    | Js.Resolved status json =>
        if negb (Js.ok status) then (c, failed)
        else
          match json with
          | inl _ => (c, failed)
          | inr data => (generatePersona_success data c, Nothing)
          end
    end in
  (Setters.setIsGeneratingPersona false c1, effect).

(** ** The rendered view, as far as it gates user actions *)

Module View.

(** [{!isTerminated && (<div> <form onSubmit={handleSubmit}> ...)}]. *)
Definition formRendered (c : Chat.t) : bool := negb (Chat.isTerminated c).

(** [disabled] of the [Input]. *)
Definition inputDisabled (c : Chat.t) : bool :=
  Chat.isLoading c || negb (Chat.shouldContinue c) || Chat.isTerminated c.

(** [disabled] of the submit [Button]. *)
Definition submitDisabled (c : Chat.t) : bool :=
  Chat.isLoading c
  || (Js.trim (Chat.input c) =? EmptyString)%string
  || negb (Chat.shouldContinue c).

(** [{chatState.backendState && (<Button onClick={generatePersona} ...)}]. *)
Definition personaButtonRendered (c : Chat.t) : bool :=
  Js.isDefined (ChatState.backendState (Chat.chatState c)).

(** [disabled] of the persona [Button]. *)
Definition personaButtonDisabled (c : Chat.t) : bool :=
  Chat.isGeneratingPersona c
  || (List.length (getLatestTraitScores (Chat.chatState c)) <? 1).

(** The user can type: the form is there and its input is enabled. *)
Definition canType (c : Chat.t) : bool :=
  formRendered c && negb (inputDisabled c).

(** The user can submit: the form is there and its button is enabled. *)
Definition canSubmit (c : Chat.t) : bool :=
  formRendered c && negb (submitDisabled c).

(** The user can click the persona button. *)
Definition canGeneratePersona (c : Chat.t) : bool :=
  personaButtonRendered c && negb (personaButtonDisabled c).

End View.

(** ** The page as a transition system

    The component state together with the network calls in flight.  A chat
    call in flight carries the [chatState] captured by the closure that
    issued it. *)

Module Page.

Record t : Type := Build
  { ui : Chat.t;
    chatCalls : list ChatState.t;
    personaCalls : nat }.

Definition initial : t := Build Chat.initial [] 0.

Inductive Event : Type :=
| SessionStarted (user_id session_id : option string)
| Typed (value : string)
| Submitted (clock : Clock.t)
| ChatSettled (fetched : Js.Fetched ChatData.t) (clock : Clock.t)
| PersonaClicked
| PersonaSettled (fetched : Js.Fetched PersonaData.t)
| PopupClosed.

(** One event; [None] when the view does not offer the action or no such
    call is in flight. *)
Definition step (e : Event) (p : t) : option t :=
  match e with
  | SessionStarted user_id session_id =>
      Some (Build
              (Setters.setSessionId session_id
                 (Setters.setUserId user_id (ui p)))
              (chatCalls p) (personaCalls p))
  | Typed value =>
      if View.canType (ui p)
      then Some (Build (Setters.setInput value (ui p)) (chatCalls p)
                   (personaCalls p))
      else None
  | Submitted clock =>
      if View.canSubmit (ui p) then
        match handleSubmit_begin clock (ui p) with
        | Some (c, _) =>
            Some (Build c (chatCalls p ++ [Chat.chatState (ui p)])
                    (personaCalls p))
        | None => Some p
        end
      else None
  | ChatSettled fetched clock =>
      match chatCalls p with
      | captured :: calls =>
          Some (Build (handleSubmit_resume captured fetched clock (ui p))
                  calls (personaCalls p))
      | [] => None
      end
  | PersonaClicked =>
      if View.canGeneratePersona (ui p) then
        match generatePersona_begin (ui p) with
        | (c, PostPersona _) => Some (Build c (chatCalls p) (S (personaCalls p)))
        | (c, _) => Some (Build c (chatCalls p) (personaCalls p))
        end
      else None
  | PersonaSettled fetched =>
      match personaCalls p with
      | S n =>
          Some (Build (fst (generatePersona_resume fetched (ui p)))
                  (chatCalls p) n)
      | O => None
      end
  | PopupClosed =>
      if Chat.showPersonaPopup (ui p)
      then Some (Build (Setters.setShowPersonaPopup false (ui p))
                   (chatCalls p) (personaCalls p))
      else None
  end.

(** A sequence of events, each one enabled where it happens. *)
Fixpoint run (events : list Event) (p : t) : option t :=
  match events with
  | [] => Some p
  | e :: events' =>
      match step e p with
      | Some p' => run events' p'
      | None => None
      end
  end.

Definition Reachable (p : t) : Prop :=
  exists events, run events initial = Some p.

End Page.

(** ** Reconciliation of a backend response

    [reconcile previous data clock] is the [chatState] that the success path
    of [handleSubmit] produces from [previous] when the closure has captured
    the trait assessments of [previous]. *)
Definition reconcile (previous : ChatState.t) (data : ChatData.t)
    (clock : Clock.t) : ChatState.t :=
  updateChatState previous data clock previous.

(** The trait assessments a reconciliation adds. *)
Definition materialized (previous : ChatState.t) (data : ChatData.t)
    (clock : Clock.t) : list TraitData.t :=
  extractNewTraitData previous (ChatData.updated_state data)
    (Clock.currentTime clock).

(** ** Vocabulary of the statements *)

Local Open Scope nat_scope.

(** The arrays of a trait as the loop reads them. *)
Definition scoresOf (us : UpdatedState.t) (t : Trait) : list Q :=
  Js.orEmpty (UpdatedState.trait_score us t).

Definition confidencesOf (us : UpdatedState.t) (t : Trait) : list Q :=
  Js.orEmpty (UpdatedState.trait_confidence us t).

Definition sentencesOf (us : UpdatedState.t) (t : Trait) : list string :=
  Js.orEmpty (UpdatedState.trait_sentences us t).

Definition rationalesOf (us : UpdatedState.t) (t : Trait) : list string :=
  Js.orEmpty (UpdatedState.trait_rationale us t).

(** The maximum length of the four arrays of a trait in a response. *)
Definition maxLengthOf (us : UpdatedState.t) (t : Trait) : nat :=
  maxLength (scoresOf us t) (confidencesOf us t) (sentencesOf us t)
    (rationalesOf us t).

(** The four arrays of a trait all have length [n]. *)
Definition arraysHaveLength (us : UpdatedState.t) (t : Trait) (n : nat)
    : Prop :=
  List.length (scoresOf us t) = n
  /\ List.length (confidencesOf us t) = n
  /\ List.length (sentencesOf us t) = n
  /\ List.length (rationalesOf us t) = n.

(** The indices among [i, i+1, ..., i+n-1] that the loop pushes a record
    for. *)
Definition pushed (scores : list Q) (sentences : list string) (i n : nat)
    : list nat :=
  filter (hasSentenceOrScore scores sentences) (seq i n).

(** The indices of a trait a reconciliation pushes a record for. *)
Definition pushedOf (captured : ChatState.t) (us : UpdatedState.t)
    (t : Trait) : list nat :=
  let k := existingCount t (ChatState.traitData captured) in
  pushed (scoresOf us t) (sentencesOf us t) k (maxLengthOf us t - k).

(** A record built from index [i] of the arrays of its trait. *)
Definition builtFrom (us : UpdatedState.t) (i : nat) (d : TraitData.t)
    : Prop :=
  exists timestamp,
    d = traitDataAt (TraitData.trait d)
          (scoresOf us (TraitData.trait d))
          (confidencesOf us (TraitData.trait d))
          (sentencesOf us (TraitData.trait d))
          (rationalesOf us (TraitData.trait d)) i timestamp.

(** A record built from an index at or beyond the count already
    materialized for its trait, and within the arrays. *)
Definition fromNewIndex (previous : ChatState.t) (us : UpdatedState.t)
    (d : TraitData.t) : Prop :=
  exists i,
    existingCount (TraitData.trait d) (ChatState.traitData previous) <= i
    /\ i < maxLengthOf us (TraitData.trait d)
    /\ builtFrom us i d.

(** The four per-trait fields of a response. *)
Inductive Field : Type :=
| score_field
| confidence_field
| sentences_field
| rationale_field.

(** The field is absent for the trait. *)
Definition absent (f : Field) (t : Trait) (us : UpdatedState.t) : Prop :=
  match f with
  | score_field => UpdatedState.trait_score us t = None
  | confidence_field => UpdatedState.trait_confidence us t = None
  | sentences_field => UpdatedState.trait_sentences us t = None
  | rationale_field => UpdatedState.trait_rationale us t = None
  end.

(** The response with the field of the trait present and equal to []. *)
Definition withEmptyArray (f : Field) (t : Trait) (us : UpdatedState.t)
    : UpdatedState.t :=
  let put {A : Type} (old : Trait -> option (list A)) (t' : Trait) :=
    if Trait_eqb t' t then Some [] else old t' in
  match f with
  | score_field =>
      UpdatedState.Build (UpdatedState.continue_conversation us)
        (UpdatedState.persona us) (UpdatedState.current_priority us)
        (UpdatedState.current_iteration us)
        (put (UpdatedState.trait_score us))
        (UpdatedState.trait_confidence us) (UpdatedState.trait_sentences us)
        (UpdatedState.trait_rationale us)
  | confidence_field =>
      UpdatedState.Build (UpdatedState.continue_conversation us)
        (UpdatedState.persona us) (UpdatedState.current_priority us)
        (UpdatedState.current_iteration us)
        (UpdatedState.trait_score us)
        (put (UpdatedState.trait_confidence us))
        (UpdatedState.trait_sentences us) (UpdatedState.trait_rationale us)
  | sentences_field =>
      UpdatedState.Build (UpdatedState.continue_conversation us)
        (UpdatedState.persona us) (UpdatedState.current_priority us)
        (UpdatedState.current_iteration us)
        (UpdatedState.trait_score us) (UpdatedState.trait_confidence us)
        (put (UpdatedState.trait_sentences us))
        (UpdatedState.trait_rationale us)
  | rationale_field =>
      UpdatedState.Build (UpdatedState.continue_conversation us)
        (UpdatedState.persona us) (UpdatedState.current_priority us)
        (UpdatedState.current_iteration us)
        (UpdatedState.trait_score us) (UpdatedState.trait_confidence us)
        (UpdatedState.trait_sentences us)
        (put (UpdatedState.trait_rationale us))
  end.

(** A chat response with another [updated_state]. *)
Definition withUpdatedState (us : UpdatedState.t) (data : ChatData.t)
    : ChatData.t :=
  ChatData.Build (ChatData.response data) us.

(** The messages of the user in a transcript. *)
Definition userMessages (chatState : ChatState.t) : list Message.t :=
  filter
    (fun m => match Message.type m with user => true | ai => false end)
    (ChatState.messages chatState).

(** The chat call failed: the transport failed or the status is not 2xx. *)
Definition callFailed {A : Type} (fetched : Js.Fetched A) : bool :=
  match fetched with
  | Js.Rejected _ => true
  | Js.Resolved status _ => negb (Js.ok status)
  end.

(** The description of the failure that reaches the [catch] block. *)
Definition failureDescription {A : Type} (fetched : Js.Fetched A) : string :=
  match fetched with
  | Js.Rejected error => describe error
  | Js.Resolved status _ => "HTTP error! status: " ++ Js.toString status
  end.

(** The assessments of a trait that carry a score, in history order. *)
Definition scored (t : Trait) (traitData : list TraitData.t)
    : list TraitData.t :=
  filter
    (fun d => Trait_eqb (TraitData.trait d) t && Js.isDefined (TraitData.score d))
    traitData.

(** Their scores. *)
Definition definedScores (t : Trait) (traitData : list TraitData.t) : list Q :=
  flat_map
    (fun d => match TraitData.score d with Some s => [s] | None => [] end)
    (scored t traitData).

(** Their confidences, an absent one counted as 0. *)
Definition countedConfidences (t : Trait) (traitData : list TraitData.t)
    : list Q :=
  map
    (fun d => match TraitData.confidence d with Some q => q | None => 0%Q end)
    (scored t traitData).

Fixpoint sum (l : list Q) : Q :=
  match l with
  | [] => 0%Q
  | x :: l' => (x + sum l')%Q
  end.

(** The arithmetic mean. *)
Definition mean (l : list Q) : Q := (sum l / number_of_nat (List.length l))%Q.

(** The entry of a trait once the assessments [l] have been accumulated:
    none while no assessment of the trait carries a score, and then the
    running totals, added in history order. *)
Definition entryOf (t : Trait) (l : list TraitData.t) : option Aggregate.t :=
  match scored t l with
  | [] => None
  | _ :: _ =>
      Some
        (Aggregate.Build
           (fold_left Qplus (definedScores t l) 0%Q)
           (fold_left Qplus
              (map (fun d => Js.orNumber (TraitData.confidence d) 0%Q)
                 (scored t l)) 0%Q)
           (List.length (scored t l)))
  end.

(** The bookkeeping of calls in flight: a persona call is in flight exactly while
    [isGeneratingPersona] is set; a chat call is in flight exactly while
    [isLoading] is set, there is at most one, and the trait assessments its
    closure captured are still the current ones. *)
Definition consistent (p : Page.t) : Prop :=
  Page.personaCalls p = (if Chat.isGeneratingPersona (Page.ui p) then 1 else 0)
  /\ match Page.chatCalls p with
     | [] => Chat.isLoading (Page.ui p) = false
     | [captured] =>
         Chat.isLoading (Page.ui p) = true
         /\ ChatState.traitData captured
            = ChatState.traitData (Chat.chatState (Page.ui p))
     | _ => False
     end.

(** All the state hooks of two component states agree, apart from the
    backend state blob held in [chatState]. *)
Definition sameUpToBlob (c1 c2 : Chat.t) : Prop :=
  Chat.userId c1 = Chat.userId c2
  /\ Chat.sessionId c1 = Chat.sessionId c2
  /\ Chat.input c1 = Chat.input c2
  /\ Chat.isLoading c1 = Chat.isLoading c2
  /\ Chat.showPersonaPopup c1 = Chat.showPersonaPopup c2
  /\ Chat.personaData c1 = Chat.personaData c2
  /\ Chat.isGeneratingPersona c1 = Chat.isGeneratingPersona c2
  /\ Chat.isTerminated c1 = Chat.isTerminated c2
  /\ Chat.shouldContinue c1 = Chat.shouldContinue c2
  /\ ChatState.messages (Chat.chatState c1)
     = ChatState.messages (Chat.chatState c2)
  /\ ChatState.traitData (Chat.chatState c1)
     = ChatState.traitData (Chat.chatState c2)
  /\ ChatState.currentPriority (Chat.chatState c1)
     = ChatState.currentPriority (Chat.chatState c2)
  /\ ChatState.currentIteration (Chat.chatState c1)
     = ChatState.currentIteration (Chat.chatState c2).

(** ** Sample inputs *)

Module Sample.

Definition clock : Clock.t := Clock.Build 1000 1000 1000.

(** Only [awareness] carries the given array. *)
Definition forAwareness {A : Type} (a : option (list A)) (t : Trait)
    : option (list A) :=
  match t with
  | awareness => a
  | _ => None
  end.

(** A chat response whose arrays concern [awareness] only. *)
Definition chatData (response : string) (continue_conversation : bool)
    (persona : option string) (scores confidences : option (list Q))
    (sentences rationales : option (list string)) : ChatData.t :=
  ChatData.Build response
    (UpdatedState.Build continue_conversation persona (Some "awareness"%string)
       (Some 1%Q) (forAwareness scores) (forAwareness confidences)
       (forAwareness sentences) (forAwareness rationales)).

(** Two sentences, the first of them empty, and no score. *)
Definition emptyFirstSentence : ChatData.t :=
  chatData "Tell me more." true None None None
    (Some [EmptyString; "Tracks monthly spending."%string]) None.

(** [n] assessments, every array of length [n]. *)
Definition uniform (n : nat) : ChatData.t :=
  chatData "Tell me more." true None (Some (repeat 3%Q n))
    (Some (repeat 7%Q n)) (Some (repeat "Plans ahead."%string n))
    (Some (repeat "Mentions a budget."%string n)).

(** The scores alone. *)
Definition scoresOnly (scores : list Q) : ChatData.t :=
  chatData "Tell me more." true None (Some scores) None None None.

(** The sentinel reply, with the conversation flagged to continue. *)
Definition terminate : ChatData.t :=
  chatData "terminate" true None None None None None.

(** The last reply of an assessment, with its persona. *)
Definition final : ChatData.t :=
  chatData "Thank you." false (Some "A careful planner."%string) (Some [4%Q])
    (Some [8%Q]) (Some ["Plans ahead."%string])
    (Some ["Mentions a budget."%string]).

(** A history of two scored [awareness] assessments, 3 and 5, neither with
    a confidence. *)
Definition threeAndFive : ChatState.t :=
  ChatState.Build []
    [ TraitData.Build awareness (Some 3%Q) None None None None;
      TraitData.Build awareness (Some 5%Q) None None None None ]
    None None None.

(** One chat turn: the user types, submits, and the call settles. *)
Definition turn (value : string) (fetched : Js.Fetched ChatData.t)
    : list Page.Event :=
  [ Page.Typed value; Page.Submitted clock; Page.ChatSettled fetched clock ].

(** The page once the user has typed and submitted a first message. *)
Definition awaiting : Page.t :=
  match
    Page.run [Page.Typed "Hi"; Page.Submitted clock] Page.initial
  with
  | Some p => p
  | None => Page.initial
  end.

(** A later reading of the clock. *)
Definition later : Clock.t := Clock.Build 2000 2000 2000.

(** The page once that first message has been answered with one assessment
    of [awareness]. *)
Definition answered : Page.t :=
  match
    Page.run
      [ Page.Typed "Hi"; Page.Submitted clock;
        Page.ChatSettled (Js.Resolved 200 (inr (uniform 1))) later ]
      Page.initial
  with
  | Some p => p
  | None => Page.initial
  end.

(** A component state in the middle of a conversation. *)
Definition midConversation : Chat.t :=
  Setters.setChatState (fun prev => reconcile prev (uniform 1) clock)
    (Setters.setSessionId (Some "s-1"%string)
       (Setters.setUserId (Some "u-1"%string) Chat.initial)).

End Sample.

(** ** The rest of the page *)

(** The string methods used by [getTraitDisplayName], on ASCII strings. *)
Module JsString.

Definition isAscii (s : string) : bool :=
  forallb (fun c => (N_of_ascii c <? 128)%N) (list_ascii_of_string s).

(** [toUpperCase] of one character. *)
Definition toUpperCaseChar (c : ascii) : ascii :=
  let n := N_of_ascii c in
  if ((97 <=? n) && (n <=? 122))%N then ascii_of_N (n - 32) else c.

Fixpoint toUpperCase (s : string) : string :=
  match s with
  | EmptyString => EmptyString
  | String c s' => String (toUpperCaseChar c) (toUpperCase s')
  end.

(** [s.charAt(0)]: the empty string when [s] is empty. *)
Definition charAt0 (s : string) : string :=
  match s with
  | EmptyString => EmptyString
  | String c _ => String c EmptyString
  end.

(** [s.slice(1)]. *)
Definition slice1 (s : string) : string :=
  match s with
  | EmptyString => EmptyString
  | String _ s' => s'
  end.

(** [s.split(sep)] for a separator of one character: never an empty
    array. *)
Fixpoint split (sep : ascii) (s : string) : list string :=
  match s with
  | EmptyString => [EmptyString]
  | String c s' =>
      if Ascii.eqb c sep then EmptyString :: split sep s'
      else
        match split sep s' with
        | word :: words => String c word :: words
        | [] => [String c EmptyString]
        end
  end.

(** [words.join(sep)]. *)
Fixpoint join (sep : string) (words : list string) : string :=
  match words with
  | [] => EmptyString
  | [word] => word
  | word :: words' => (word ++ sep ++ join sep words')%string
  end.

End JsString.

(** The identifier of a trait, as it is written in [traits]. *)
Definition Trait_name (t : Trait) : string :=
  match t with
  | awareness => "awareness"
  | self_control => "self_control"
  | preparedness => "preparedness"
  | information_seeking => "information_seeking"
  | risk_seeking => "risk_seeking"
  | reaction_to_external_events => "reaction_to_external_events"
  end.

Definition getTraitDisplayName (trait : string) : string :=
  JsString.join " "
    (map
       (fun word =>
          (JsString.toUpperCase (JsString.charAt0 word)
           ++ JsString.slice1 word)%string)
       (JsString.split "_" trait)).

(** The filter [messageTraitAssessments] computed for the message rendered
    at [index]. *)
Definition messageTraitAssessments (chatState : ChatState.t)
    (message : Message.t) (index : nat) : list TraitData.t :=
  let length := Z.of_nat (List.length (ChatState.messages chatState)) in
  filter
    (fun trait =>
       match TraitData.timestamp trait with
       | Some timestamp =>
           (Message.timestamp message <? timestamp)%Z
           && (Js.truthyString (TraitData.sentence trait)
               || Js.isDefined (TraitData.score trait)
               || Js.truthyString (TraitData.rationale trait))
           && match Message.type message with user => true | ai => false end
           && ((Z.of_nat index =? length - 2)%Z
               || (Z.of_nat index =? length - 1)%Z)
       | None => false
       end)
    (ChatState.traitData chatState).

(** Assessment cards are rendered under the message:
    [message.type === "user" && messageTraitAssessments.length > 0]. *)
Definition cardsRendered (chatState : ChatState.t) (message : Message.t)
    (index : nat) : bool :=
  match Message.type message with user => true | ai => false end
  && (0 <? List.length (messageTraitAssessments chatState message index)).

(** The decoded body of a [/start-session] response. *)
Module SessionData.
Record t : Type := Build
  { user_id : option string;
    session_id : option string }.
End SessionData.

(** [startSession] after its network call has settled; the status is not
    looked at. *)
Definition startSession_resume (fetched : Js.Fetched SessionData.t)
    (c : Chat.t) : Chat.t :=
  match fetched with
  | Js.Rejected _ => c
  | Js.Resolved _ (inl _) => c
  | Js.Resolved _ (inr data) =>
      Setters.setSessionId (SessionData.session_id data)
        (Setters.setUserId (SessionData.user_id data) c)
  end.

(** The consent page. *)
Module ConsentPage.

(** The hook [consent], initially [false]. *)
Definition initial : bool := false.

(** [onChange] of the checkbox. *)
Definition onChange (consent : bool) : bool := negb consent.

(** [handleSubmit]: the route given to [router.push], if any. *)
Definition handleSubmit (consent : bool) : option string :=
  if consent then Some "/chatbot"%string else None.

(** [disabled] of the button. *)
Definition buttonDisabled (consent : bool) : bool := negb consent.

Inductive Event : Type :=
| Toggled
| Submitted.

(** The state after the events and the routes pushed on the way. *)
Fixpoint run (events : list Event) (consent : bool)
    : bool * list string :=
  match events with
  | [] => (consent, [])
  | Toggled :: events' => run events' (onChange consent)
  | Submitted :: events' =>
      let '(consent', routes) := run events' consent in
      (consent',
       match handleSubmit consent with
       | Some route => route :: routes
       | None => routes
       end)
  end.

End ConsentPage.

(** ** Vocabulary of the further statements *)

(** The display name computed character by character: an underscore becomes
    a space, and the first character of each word is put in upper case. *)
Fixpoint displayFrom (wordStart : bool) (s : string) : string :=
  match s with
  | EmptyString => EmptyString
  | String c s' =>
      if Ascii.eqb c "_" then String " " (displayFrom true s')
      else
        String (if wordStart then JsString.toUpperCaseChar c else c)
          (displayFrom false s')
  end.

(** The records built for the given indices of a trait, stamped
    [timestamp], [timestamp + 1], ... *)
Fixpoint builtAt (us : UpdatedState.t) (t : Trait) (indices : list nat)
    (timestamp : Z) : list TraitData.t :=
  match indices with
  | [] => []
  | i :: indices' =>
      traitDataAt t (scoresOf us t) (confidencesOf us t) (sentencesOf us t)
        (rationalesOf us t) i timestamp
      :: builtAt us t indices' (timestamp + 1)
  end.

(** The records a reconciliation is to push, trait after trait. *)
Fixpoint listing (captured : ChatState.t) (us : UpdatedState.t)
    (ts : list Trait) (timestamp : Z) : list TraitData.t :=
  match ts with
  | [] => []
  | t :: ts' =>
      builtAt us t (pushedOf captured us t) timestamp
      ++ listing captured us ts'
           (timestamp + Z.of_nat (List.length (pushedOf captured us t)))
  end.

(** The outcome of a persona call that does not reach the end of the [try]
    block. *)
Definition personaFailed (fetched : Js.Fetched PersonaData.t) : bool :=
  match fetched with
  | Js.Rejected _ => true
  | Js.Resolved status (inl _) => true
  | Js.Resolved status (inr _) => negb (Js.ok status)
  end.

(** The number of [Toggled] events. *)
Definition toggles (events : list ConsentPage.Event) : nat :=
  List.length
    (filter
       (fun e =>
          match e with
          | ConsentPage.Toggled => true
          | ConsentPage.Submitted => false
          end)
       events).

(** The speaker expected at a position of the transcript: the user at the
    even positions, the assistant at the odd ones. *)
Definition speakerAt (i : nat) : MessageType :=
  if Nat.even i then user else ai.

(** The transcript takes turns, and it ends with a message of the user
    exactly while a chat call is in flight. *)
Definition takesTurns (c : Chat.t) : Prop :=
  (forall i m,
      nth_error (ChatState.messages (Chat.chatState c)) i = Some m ->
      Message.type m = speakerAt i)
  /\ Nat.even (List.length (ChatState.messages (Chat.chatState c)))
     = negb (Chat.isLoading c).

(** The string consists of white space only (it may be empty). *)
Definition blank (s : string) : bool :=
  forallb Js.isWhiteSpace (list_ascii_of_string s).

(** * Properties *)

Unset Implicit Arguments.

(** ** Counting the records a reconciliation materializes *)

Section Counting.

Variables (scores confidences : list Q) (sentences rationales : list string).
Variable currentTime : Z.

Lemma existingCount_app (t : Trait) (l1 l2 : list TraitData.t) :
  existingCount t (l1 ++ l2) = existingCount t l1 + existingCount t l2.
Proof.
  unfold existingCount. now rewrite filter_app, length_app.
Qed.

Lemma forLoop_count (t' trait : Trait) (n : nat) :
  forall i newTraitData,
    existingCount t'
      (forLoop n i trait scores confidences sentences rationales currentTime
         newTraitData)
    = existingCount t' newTraitData
      + (if Trait_eqb trait t' then List.length (pushed scores sentences i n) else 0).
Proof.
  unfold pushed.
  induction n as [|n IH]; intros i acc; simpl.
  - destruct (Trait_eqb trait t'); lia.
  - rewrite IH.
    destruct (hasSentenceOrScore scores sentences i); simpl.
    + rewrite existingCount_app. unfold existingCount at 2. simpl.
      destruct (Trait_eqb trait t'); simpl; lia.
    + reflexivity.
Qed.

Lemma pushed_length_le (i n : nat) : List.length (pushed scores sentences i n) <= n.
Proof.
  unfold pushed.
  etransitivity; [apply filter_length_le|]. now rewrite length_seq.
Qed.

(** Beyond both arrays nothing is pushed. *)
Lemma pushed_beyond (i n : nat) :
  List.length scores <= i -> List.length sentences <= i -> pushed scores sentences i n = [].
Proof.
  intros Hs Ht. unfold pushed.
  induction n as [|n IH] in i, Hs, Ht |- *; simpl; [reflexivity|].
  unfold hasSentenceOrScore at 1, Js.index.
  rewrite (proj2 (nth_error_None sentences i) Ht).
  rewrite (proj2 (nth_error_None scores i) Hs). simpl.
  apply IH; lia.
Qed.

(** Within the scores array every index is pushed. *)
Lemma pushed_within (i n : nat) :
  i + n <= List.length scores -> pushed scores sentences i n = seq i n.
Proof.
  intros H. unfold pushed.
  induction n as [|n IH] in i, H |- *; simpl; [reflexivity|].
  unfold hasSentenceOrScore at 1, Js.index.
  destruct (nth_error scores i) eqn:E.
  - rewrite orb_true_r. f_equal. apply IH. lia.
  - apply nth_error_None in E. lia.
Qed.

End Counting.

Lemma extractTrait_count (captured : ChatState.t) (us : UpdatedState.t)
    (currentTime : Z) (t' trait : Trait) (newTraitData : list TraitData.t) :
  existingCount t' (extractTrait captured us currentTime newTraitData trait)
  = existingCount t' newTraitData
    + (if Trait_eqb trait t' then List.length (pushedOf captured us trait)
       else 0).
Proof.
  unfold extractTrait, pushedOf, maxLengthOf, scoresOf, confidencesOf,
    sentencesOf, rationalesOf.
  set (k := existingCount trait (ChatState.traitData captured)).
  destruct ((k <? _) || (k <? _) || (k <? _)) eqn:G.
  - apply forLoop_count.
  - apply orb_false_iff in G as [G Gr]. apply orb_false_iff in G as [Gs Gt].
    apply Nat.ltb_ge in Gs, Gt, Gr.
    rewrite pushed_beyond by assumption.
    destruct (Trait_eqb trait t'); simpl; lia.
Qed.

Lemma Trait_eqb_eq (a b : Trait) : Trait_eqb a b = true <-> a = b.
Proof. destruct a, b; simpl; split; congruence. Qed.

Lemma Trait_eqb_refl (a : Trait) : Trait_eqb a a = true.
Proof. now destruct a. Qed.

(** Each trait gets exactly the records pushed for its own indices. *)
Lemma extractNewTraitData_count (captured : ChatState.t)
    (us : UpdatedState.t) (currentTime : Z) (t : Trait) :
  existingCount t (extractNewTraitData captured us currentTime)
  = List.length (pushedOf captured us t).
Proof.
  unfold extractNewTraitData, traits. simpl fold_left.
  rewrite !extractTrait_count.
  destruct t; simpl; lia.
Qed.

Lemma reconcile_traitData (previous : ChatState.t) (data : ChatData.t)
    (clock : Clock.t) :
  ChatState.traitData (reconcile previous data clock)
  = ChatState.traitData previous ++ materialized previous data clock.
Proof. reflexivity. Qed.

Lemma materialized_count (previous : ChatState.t) (data : ChatData.t)
    (clock : Clock.t) (t : Trait) :
  existingCount t (materialized previous data clock)
  = List.length (pushedOf previous (ChatData.updated_state data) t).
Proof. apply extractNewTraitData_count. Qed.

Lemma reconcile_count (previous : ChatState.t) (data : ChatData.t)
    (clock : Clock.t) (t : Trait) :
  existingCount t (ChatState.traitData (reconcile previous data clock))
  = existingCount t (ChatState.traitData previous)
    + List.length (pushedOf previous (ChatData.updated_state data) t).
Proof.
  now rewrite reconcile_traitData, existingCount_app, materialized_count.
Qed.

Lemma pushedOf_length_le (captured : ChatState.t) (us : UpdatedState.t)
    (t : Trait) :
  List.length (pushedOf captured us t)
  <= maxLengthOf us t - existingCount t (ChatState.traitData captured).
Proof. apply pushed_length_le. Qed.

Lemma scores_le_maxLengthOf (us : UpdatedState.t) (t : Trait) :
  List.length (scoresOf us t) <= maxLengthOf us t.
Proof. unfold maxLengthOf, maxLength. lia. Qed.

Lemma sentences_le_maxLengthOf (us : UpdatedState.t) (t : Trait) :
  List.length (sentencesOf us t) <= maxLengthOf us t.
Proof. unfold maxLengthOf, maxLength. lia. Qed.

(** When the four arrays have the same length [n], a reconciliation brings
    a count below [n] up to [n] and leaves a larger count alone. *)
Lemma pushedOf_full (captured : ChatState.t) (us : UpdatedState.t)
    (t : Trait) (n : nat) :
  arraysHaveLength us t n ->
  List.length (pushedOf captured us t)
  = n - existingCount t (ChatState.traitData captured).
Proof.
  intros (Hs & Hc & Ht & Hr). unfold pushedOf.
  assert (maxLengthOf us t = n) as ->.
  { unfold maxLengthOf, maxLength. lia. }
  cbv zeta.
  destruct (Nat.le_gt_cases (existingCount t (ChatState.traitData captured)) n)
    as [Hle|Hgt].
  - rewrite pushed_within by lia. apply length_seq.
  - replace (n - _) with 0 by lia. reflexivity.
Qed.

(** ** Where the pushed records come from *)

Section Provenance.

Variables (previous : ChatState.t) (us : UpdatedState.t) (currentTime : Z).

Lemma forLoop_Forall (P : TraitData.t -> Prop) (trait : Trait)
    (scores confidences : list Q) (sentences rationales : list string)
    (n : nat) :
  forall i newTraitData,
    Forall P newTraitData ->
    (forall j timestamp,
        i <= j < i + n ->
        P (traitDataAt trait scores confidences sentences rationales j
             timestamp)) ->
    Forall P
      (forLoop n i trait scores confidences sentences rationales currentTime
         newTraitData).
Proof.
  induction n as [|n IH]; intros i acc Hacc Hnew; simpl; [assumption|].
  apply IH.
  - destruct (hasSentenceOrScore scores sentences i); [|assumption].
    apply Forall_app. split; [assumption|].
    constructor; [|constructor]. apply Hnew. lia.
  - intros j ts Hj. apply Hnew. lia.
Qed.

Lemma extractTrait_fromNewIndex (trait : Trait)
    (newTraitData : list TraitData.t) :
  Forall (fromNewIndex previous us) newTraitData ->
  Forall (fromNewIndex previous us)
    (extractTrait previous us currentTime newTraitData trait).
Proof.
  intros Hacc. unfold extractTrait.
  match goal with |- context [if ?g then _ else _] => destruct g end;
    [|assumption].
  apply forLoop_Forall; [assumption|].
  intros j ts Hj. exists j. simpl.
  fold (scoresOf us trait) (confidencesOf us trait) (sentencesOf us trait)
    (rationalesOf us trait) (maxLengthOf us trait) in *.
  split; [lia|]. split; [lia|now exists ts].
Qed.

Lemma extractNewTraitData_fromNewIndex :
  Forall (fromNewIndex previous us)
    (extractNewTraitData previous us currentTime).
Proof.
  unfold extractNewTraitData, traits. simpl fold_left.
  repeat apply extractTrait_fromNewIndex. constructor.
Qed.

End Provenance.

(** ** Re-delivery of a response *)

Lemma pushed_split (scores : list Q) (sentences : list string)
    (i a b : nat) :
  pushed scores sentences i (a + b)
  = pushed scores sentences i a ++ pushed scores sentences (i + a) b.
Proof. unfold pushed. now rewrite seq_app, filter_app. Qed.

(** A reconciliation leaves at least as many records of a trait as the
    response has scores for it. *)
Lemma reconcile_count_ge_scores (previous : ChatState.t) (data : ChatData.t)
    (clock : Clock.t) (t : Trait) :
  List.length (scoresOf (ChatData.updated_state data) t)
  <= existingCount t (ChatState.traitData (reconcile previous data clock)).
Proof.
  rewrite reconcile_count.
  set (us := ChatData.updated_state data).
  set (k := existingCount t (ChatState.traitData previous)).
  destruct (Nat.le_gt_cases (List.length (scoresOf us t)) k) as [?|Hlt];
    [lia|].
  unfold pushedOf. fold k. cbv zeta.
  pose proof (scores_le_maxLengthOf us t) as Hmax.
  replace (maxLengthOf us t - k)
    with ((List.length (scoresOf us t) - k)
          + (maxLengthOf us t - List.length (scoresOf us t))) by lia.
  rewrite pushed_split, length_app, pushed_within by lia.
  rewrite length_seq. lia.
Qed.

(** X19.  A response whose sentences are no more numerous than its scores
    is reconciled once and for all: delivered again, it adds nothing. *)
Lemma redelivery_adds_nothing_when_scored (previous : ChatState.t)
    (data : ChatData.t) (clock clock' : Clock.t) (t : Trait) :
  let us := ChatData.updated_state data in
  List.length (sentencesOf us t) <= List.length (scoresOf us t) ->
  existingCount t (materialized (reconcile previous data clock) data clock')
  = 0.
Proof.
  intros us Hdense.
  pose proof (reconcile_count_ge_scores previous data clock t) as Hge.
  fold us in Hge.
  rewrite materialized_count. fold us. unfold pushedOf. cbv zeta.
  rewrite pushed_beyond; [reflexivity| |]; lia.
Qed.

(** C1 (the code departs from the claim).  A response in which an empty
    sentence without a score precedes a non-empty one is reconciled from
    the initial state into one [awareness] record, and reconciling the same
    response again adds that record a second time: the count goes from 1 to
    2.  The same happens in the page when the response settles two
    successive chat turns. *)
Theorem redelivery_materializes_again :
  let initial := Chat.chatState Chat.initial in
  let once := reconcile initial Sample.emptyFirstSentence Sample.clock in
  let twice := reconcile once Sample.emptyFirstSentence Sample.clock in
  existingCount awareness (ChatState.traitData once) = 1
  /\ existingCount awareness (ChatState.traitData twice) = 2
  /\ exists p1 p2,
       Page.run
         (Sample.turn "Hi" (Js.Resolved 200 (inr Sample.emptyFirstSentence)))
         Page.initial = Some p1
       /\ Page.run
            (Sample.turn "Hi again"
               (Js.Resolved 200 (inr Sample.emptyFirstSentence)))
            p1 = Some p2
       /\ List.length (ChatState.traitData (Chat.chatState (Page.ui p1))) = 1
       /\ List.length (ChatState.traitData (Chat.chatState (Page.ui p2))) = 2.
Proof.
  cbv zeta. split; [reflexivity|]. split; [reflexivity|].
  eexists. eexists.
  split; [vm_compute; reflexivity|].
  split; [vm_compute; reflexivity|].
  split; reflexivity.
Qed.

(** ** Successive responses with growing arrays *)

Lemma uniform_arraysHaveLength (n : nat) :
  arraysHaveLength (ChatData.updated_state (Sample.uniform n)) awareness n.
Proof.
  unfold arraysHaveLength, scoresOf, confidencesOf, sentencesOf, rationalesOf.
  simpl. now rewrite !repeat_length.
Qed.

(** C2.  When the four arrays of a trait have length [N1] in a first
    response and [N2 >= N1] in the next one, and the first response is
    reconciled against a state holding at most [N1] records of the trait
    (so that it leaves exactly [N1] of them), the second reconciliation
    materializes exactly [N2 - N1] records for the trait. *)
Theorem second_reconciliation_materializes_the_difference
    (t : Trait) (previous : ChatState.t) (data1 data2 : ChatData.t)
    (clock1 clock2 : Clock.t) (N1 N2 : nat) :
  arraysHaveLength (ChatData.updated_state data1) t N1 ->
  arraysHaveLength (ChatData.updated_state data2) t N2 ->
  N1 <= N2 ->
  existingCount t (ChatState.traitData previous) <= N1 ->
  let first := reconcile previous data1 clock1 in
  existingCount t (ChatState.traitData first) = N1
  /\ existingCount t (materialized first data2 clock2) = N2 - N1
  /\ existingCount t (ChatState.traitData (reconcile first data2 clock2)) = N2.
Proof.
  intros H1 H2 Hle Hk first.
  assert (existingCount t (ChatState.traitData first) = N1) as Hfirst.
  { unfold first. rewrite reconcile_count, (pushedOf_full _ _ _ _ H1). lia. }
  split; [assumption|].
  split.
  - rewrite materialized_count, (pushedOf_full _ _ _ _ H2), Hfirst. reflexivity.
  - rewrite reconcile_count, (pushedOf_full _ _ _ _ H2), Hfirst. lia.
Qed.

Lemma second_reconciliation_materializes_the_difference_witness :
  let first :=
    reconcile (Chat.chatState Chat.initial) (Sample.uniform 1) Sample.clock in
  existingCount awareness (ChatState.traitData first) = 1
  /\ existingCount awareness
       (materialized first (Sample.uniform 3) Sample.clock) = 3 - 1
  /\ existingCount awareness
       (ChatState.traitData
          (reconcile first (Sample.uniform 3) Sample.clock)) = 3.
Proof.
  apply (second_reconciliation_materializes_the_difference
           awareness (Chat.chatState Chat.initial)
           (Sample.uniform 1) (Sample.uniform 3)
           Sample.clock Sample.clock 1 3).
  - repeat split; reflexivity.
  - repeat split; reflexivity.
  - lia.
  - vm_compute. lia.
Defined.

(** ** The bound on the materialized count *)

(** C7 (as the code has it).  After a reconciliation the number of records
    of a trait is at most the larger of the number held before and the
    maximum length of the trait's four arrays in the reconciled response;
    the reconciliation appends to the records held before, and every record
    it appends is built from an index at or beyond the count already
    materialized for its trait. *)
Theorem reconcile_appends_from_new_indices
    (t : Trait) (previous : ChatState.t) (data : ChatData.t)
    (clock : Clock.t) :
  let us := ChatData.updated_state data in
  existingCount t (ChatState.traitData (reconcile previous data clock))
  <= Nat.max (existingCount t (ChatState.traitData previous))
       (maxLengthOf us t)
  /\ ChatState.traitData (reconcile previous data clock)
     = ChatState.traitData previous ++ materialized previous data clock
  /\ Forall (fromNewIndex previous us) (materialized previous data clock).
Proof.
  intros us. split; [|split].
  - rewrite reconcile_count. fold us.
    pose proof (pushedOf_length_le previous us t). lia.
  - reflexivity.
  - apply extractNewTraitData_fromNewIndex.
Qed.

(** C7 (the claim as stated fails).  The page reaches a state that holds
    two [awareness] records while the arrays of the most recent response,
    kept as the backend state, have length one: the backend reported two
    scores and then a single one. *)
Lemma count_exceeds_latest_arrays :
  ~ (forall p, Page.Reachable p ->
     forall us t,
       ChatState.backendState (Chat.chatState (Page.ui p)) = Some us ->
       existingCount t (ChatState.traitData (Chat.chatState (Page.ui p)))
       <= maxLengthOf us t).
Proof.
  intros H.
  set (events :=
         Sample.turn "Hi" (Js.Resolved 200 (inr (Sample.scoresOnly [3%Q; 4%Q])))
         ++ Sample.turn "More"
              (Js.Resolved 200 (inr (Sample.scoresOnly [3%Q])))).
  destruct (Page.run events Page.initial) as [p|] eqn:E;
    [|vm_compute in E; discriminate].
  specialize (H p (ex_intro _ events E)
                (ChatData.updated_state (Sample.scoresOnly [3%Q])) awareness).
  vm_compute in E. injection E as <-.
  specialize (H eq_refl). vm_compute in H. lia.
Qed.

(** ** What the success path of [handleSubmit] sets *)

Section Success.

Variables (captured : ChatState.t) (data : ChatData.t) (clock : Clock.t)
  (c : Chat.t).

Local Abbreviation c' := (handleSubmit_success captured data clock c).

Lemma handleSubmit_success_chatState :
  Chat.chatState c' = updateChatState captured data clock (Chat.chatState c).
Proof.
  unfold handleSubmit_success.
  destruct (ChatData.response data =? "terminate")%string,
    (UpdatedState.continue_conversation (ChatData.updated_state data));
    reflexivity.
Qed.

Lemma handleSubmit_success_isTerminated :
  Chat.isTerminated c'
  = (ChatData.response data =? "terminate")%string || Chat.isTerminated c.
Proof.
  unfold handleSubmit_success.
  destruct (ChatData.response data =? "terminate")%string,
    (UpdatedState.continue_conversation (ChatData.updated_state data));
    reflexivity.
Qed.

Lemma handleSubmit_success_shouldContinue :
  Chat.shouldContinue c'
  = UpdatedState.continue_conversation (ChatData.updated_state data)
    && Chat.shouldContinue c.
Proof.
  unfold handleSubmit_success.
  destruct (ChatData.response data =? "terminate")%string,
    (UpdatedState.continue_conversation (ChatData.updated_state data));
    reflexivity.
Qed.

Lemma handleSubmit_success_others :
  Chat.userId c' = Chat.userId c
  /\ Chat.sessionId c' = Chat.sessionId c
  /\ Chat.input c' = Chat.input c
  /\ Chat.isLoading c' = false
  /\ Chat.showPersonaPopup c' = Chat.showPersonaPopup c
  /\ Chat.personaData c' = Chat.personaData c
  /\ Chat.isGeneratingPersona c' = Chat.isGeneratingPersona c.
Proof.
  unfold handleSubmit_success.
  destruct (ChatData.response data =? "terminate")%string,
    (UpdatedState.continue_conversation (ChatData.updated_state data));
    repeat split; reflexivity.
Qed.

End Success.

(** ** Absent arrays *)

Section AbsentArrays.

Variables (f : Field) (t : Trait) (us : UpdatedState.t).
Hypothesis Habsent : absent f t us.

Lemma withEmptyArray_arrays (t' : Trait) :
  scoresOf (withEmptyArray f t us) t' = scoresOf us t'
  /\ confidencesOf (withEmptyArray f t us) t' = confidencesOf us t'
  /\ sentencesOf (withEmptyArray f t us) t' = sentencesOf us t'
  /\ rationalesOf (withEmptyArray f t us) t' = rationalesOf us t'.
Proof.
  unfold scoresOf, confidencesOf, sentencesOf, rationalesOf.
  destruct f; simpl in *; repeat split; try reflexivity;
    destruct (Trait_eqb t' t) eqn:E; try reflexivity;
    apply Trait_eqb_eq in E; subst t'; now rewrite Habsent.
Qed.

Lemma withEmptyArray_extractTrait (captured : ChatState.t) (currentTime : Z)
    (newTraitData : list TraitData.t) (trait : Trait) :
  extractTrait captured (withEmptyArray f t us) currentTime newTraitData trait
  = extractTrait captured us currentTime newTraitData trait.
Proof.
  destruct (withEmptyArray_arrays trait) as (Hs & Hc & Ht & Hr).
  unfold extractTrait.
  fold (scoresOf (withEmptyArray f t us) trait)
    (confidencesOf (withEmptyArray f t us) trait)
    (sentencesOf (withEmptyArray f t us) trait)
    (rationalesOf (withEmptyArray f t us) trait).
  now rewrite Hs, Hc, Ht, Hr.
Qed.

Lemma withEmptyArray_extractNewTraitData (captured : ChatState.t)
    (currentTime : Z) :
  extractNewTraitData captured (withEmptyArray f t us) currentTime
  = extractNewTraitData captured us currentTime.
Proof.
  unfold extractNewTraitData, traits. simpl fold_left.
  now rewrite !withEmptyArray_extractTrait.
Qed.

Lemma withEmptyArray_scalars :
  UpdatedState.continue_conversation (withEmptyArray f t us)
  = UpdatedState.continue_conversation us
  /\ UpdatedState.persona (withEmptyArray f t us) = UpdatedState.persona us
  /\ UpdatedState.current_priority (withEmptyArray f t us)
     = UpdatedState.current_priority us
  /\ UpdatedState.current_iteration (withEmptyArray f t us)
     = UpdatedState.current_iteration us.
Proof. destruct f; repeat split; reflexivity. Qed.

End AbsentArrays.

(** C8.  When one of the four arrays of a trait is absent from a chat
    response, the handler runs its success path to the end (the assistant
    message is appended, no error message), and the state it produces is the
    one it produces from the same response with that array present and
    equal to [[]], the stored backend state blob apart, which is in each
    case the [updated_state] that was delivered. *)
Theorem absent_array_is_read_as_empty
    (f : Field) (t : Trait) (data : ChatData.t) (captured : ChatState.t)
    (status : Z) (clock : Clock.t) (c : Chat.t) :
  let us := ChatData.updated_state data in
  let data' := withUpdatedState (withEmptyArray f t us) data in
  let c1 := handleSubmit_resume captured (Js.Resolved status (inr data)) clock c in
  let c2 := handleSubmit_resume captured (Js.Resolved status (inr data')) clock c in
  absent f t us ->
  Js.ok status = true ->
  c1 = handleSubmit_success captured data clock c
  /\ ChatState.messages (Chat.chatState c1)
     = ChatState.messages (Chat.chatState c) ++ [aiMessage data clock]
  /\ extractNewTraitData captured us (Clock.currentTime clock)
     = extractNewTraitData captured (withEmptyArray f t us)
         (Clock.currentTime clock)
  /\ sameUpToBlob c1 c2
  /\ ChatState.backendState (Chat.chatState c1) = Some us
  /\ ChatState.backendState (Chat.chatState c2)
     = Some (withEmptyArray f t us).
Proof.
  intros us data' c1 c2 Habsent Hok.
  unfold c1, c2, handleSubmit_resume. rewrite Hok. simpl negb. cbv iota.
  split; [reflexivity|].
  split; [now rewrite handleSubmit_success_chatState|].
  split; [symmetry; now apply withEmptyArray_extractNewTraitData|].
  destruct (withEmptyArray_scalars f t us Habsent) as (Hc & Hp & Hq & Hi).
  destruct (handleSubmit_success_others captured data clock c)
    as (B1 & B2 & B3 & B4 & B5 & B6 & B7).
  destruct (handleSubmit_success_others captured data' clock c)
    as (A1 & A2 & A3 & A4 & A5 & A6 & A7).
  unfold sameUpToBlob.
  rewrite !handleSubmit_success_chatState, !handleSubmit_success_isTerminated,
    !handleSubmit_success_shouldContinue, A1, A2, A3, A4, A5, A6, A7,
    B1, B2, B3, B4, B5, B6, B7.
  unfold updateChatState, aiMessage, data', withUpdatedState.
  simpl ChatData.updated_state. simpl ChatData.response. fold us.
  rewrite Hc, Hp, Hq, Hi.
  rewrite (withEmptyArray_extractNewTraitData f t us Habsent).
  repeat split; reflexivity.
Qed.

Lemma absent_array_is_read_as_empty_witness :
  let data := Sample.scoresOnly [3%Q] in
  let us := ChatData.updated_state data in
  let data' := withUpdatedState (withEmptyArray sentences_field awareness us) data in
  let c1 :=
    handleSubmit_resume (Chat.chatState Chat.initial)
      (Js.Resolved 200 (inr data)) Sample.clock Chat.initial in
  let c2 :=
    handleSubmit_resume (Chat.chatState Chat.initial)
      (Js.Resolved 200 (inr data')) Sample.clock Chat.initial in
  absent sentences_field awareness us
  /\ Js.ok 200 = true
  /\ sameUpToBlob c1 c2
  /\ List.length (ChatState.traitData (Chat.chatState c1)) = 1.
Proof.
  cbv zeta.
  split; [reflexivity|]. split; [reflexivity|].
  split; [|reflexivity].
  apply (absent_array_is_read_as_empty sentences_field awareness
           (Sample.scoresOnly [3%Q]) (Chat.chatState Chat.initial) 200
           Sample.clock Chat.initial); reflexivity.
Defined.

(** ** [getLatestTraitScores] *)

Section Aggregation.

Local Open Scope Q_scope.

Lemma lookup_app (t : Trait) (o o' : Aggregates) :
  lookup t (o ++ o')
  = match lookup t o with Some a => Some a | None => lookup t o' end.
Proof.
  induction o as [|[k v] o IH]; simpl; [reflexivity|].
  now destruct (Trait_eqb k t).
Qed.

Lemma Trait_eqb_trans_l (k t t' : Trait) :
  Trait_eqb k t' = true -> Trait_eqb k t = Trait_eqb t' t.
Proof. intros H. apply Trait_eqb_eq in H. now subst. Qed.

Lemma lookup_adjust (f : Aggregate.t -> Aggregate.t) (t t' : Trait)
    (o : Aggregates) :
  lookup t (adjust f t' o)
  = if Trait_eqb t' t then option_map f (lookup t o) else lookup t o.
Proof.
  induction o as [|[k v] o IH]; simpl.
  - now destruct (Trait_eqb t' t).
  - destruct (Trait_eqb k t') eqn:E; simpl.
    + rewrite (Trait_eqb_trans_l k t t' E).
      now destruct (Trait_eqb t' t).
    + rewrite IH. destruct (Trait_eqb k t) eqn:E'; [|reflexivity].
      destruct (Trait_eqb t' t) eqn:E''; [|reflexivity].
      apply Trait_eqb_eq in E', E''. subst.
      now rewrite Trait_eqb_refl in E.
Qed.

Lemma keys_adjust (f : Aggregate.t -> Aggregate.t) (t : Trait)
    (o : Aggregates) :
  map fst (adjust f t o) = map fst o.
Proof.
  induction o as [|[k v] o IH]; simpl; [reflexivity|].
  destruct (Trait_eqb k t); simpl; now rewrite ?IH.
Qed.

Lemma lookup_None_keys (t : Trait) (o : Aggregates) :
  lookup t o = None <-> ~ In t (map fst o).
Proof.
  induction o as [|[k v] o IH]; simpl; [tauto|].
  destruct (Trait_eqb k t) eqn:E.
  - apply Trait_eqb_eq in E. split; [discriminate|]. intros H. exfalso. auto.
  - rewrite IH. split.
    + intros H [->|H']; [now rewrite Trait_eqb_refl in E|auto].
    + intros H H'. auto.
Qed.

Lemma lookup_In (t : Trait) (a : Aggregate.t) (o : Aggregates) :
  NoDup (map fst o) -> In (t, a) o -> lookup t o = Some a.
Proof.
  induction o as [|[k v] o IH]; simpl; [tauto|].
  intros Hnd [H|H].
  - injection H as -> ->. now rewrite Trait_eqb_refl.
  - inversion Hnd as [|? ? Hk Hnd']; subst.
    destruct (Trait_eqb k t) eqn:E; [|auto].
    apply Trait_eqb_eq in E. subst k. exfalso. apply Hk.
    now apply (in_map fst) in H.
Qed.

Lemma scored_app (t : Trait) (l l' : list TraitData.t) :
  scored t (l ++ l') = scored t l ++ scored t l'.
Proof. apply filter_app. Qed.

Lemma definedScores_app (t : Trait) (l l' : list TraitData.t) :
  definedScores t (l ++ l') = definedScores t l ++ definedScores t l'.
Proof. unfold definedScores. now rewrite scored_app, flat_map_app. Qed.

Lemma accumulate_lookup (o : Aggregates) (d : TraitData.t) (t : Trait) :
  lookup t (accumulate o d)
  = match TraitData.score d with
    | Some s =>
        if Trait_eqb (TraitData.trait d) t then
          let a :=
            match lookup t o with
            | Some a => a
            | None => Aggregate.Build 0 0 0
            end in
          Some
            (Aggregate.Build
               (Aggregate.totalScore a + s)
               (Aggregate.totalConfidence a
                + Js.orNumber (TraitData.confidence d) 0)
               (Aggregate.count a + 1))
        else lookup t o
    | None => lookup t o
    end.
Proof.
  unfold accumulate. destruct (TraitData.score d) as [s|]; [|reflexivity].
  rewrite lookup_adjust.
  destruct (Trait_eqb (TraitData.trait d) t) eqn:E.
  - apply Trait_eqb_eq in E. rewrite E.
    destruct (lookup t o) as [a|] eqn:L; simpl.
    + now rewrite L.
    + rewrite lookup_app, L. simpl. now rewrite Trait_eqb_refl.
  - destruct (lookup (TraitData.trait d) o); simpl; [reflexivity|].
    rewrite lookup_app. simpl. rewrite E. now destruct (lookup t o).
Qed.

Lemma accumulate_keys_NoDup (o : Aggregates) (d : TraitData.t) :
  NoDup (map fst o) -> NoDup (map fst (accumulate o d)).
Proof.
  intros Hnd. unfold accumulate.
  destruct (TraitData.score d) as [s|]; [|assumption].
  rewrite keys_adjust.
  destruct (lookup (TraitData.trait d) o) eqn:L; simpl; [assumption|].
  rewrite map_app. simpl. apply NoDup_app; [assumption| |].
  - constructor; [intros []|constructor].
  - intros a Ha [<-|[]]. now apply lookup_None_keys in L.
Qed.

Lemma fold_accumulate_snoc (l : list TraitData.t) (d : TraitData.t) :
  fold_left accumulate (l ++ [d]) []
  = accumulate (fold_left accumulate l []) d.
Proof. now rewrite fold_left_app. Qed.

Lemma fold_accumulate_keys_NoDup (l : list TraitData.t) :
  NoDup (map fst (fold_left accumulate l [])).
Proof.
  induction l as [|d l IH] using rev_ind; [constructor|].
  rewrite fold_accumulate_snoc. now apply accumulate_keys_NoDup.
Qed.

Lemma scored_one (t : Trait) (d : TraitData.t) :
  scored t [d]
  = if Trait_eqb (TraitData.trait d) t && Js.isDefined (TraitData.score d)
    then [d] else [].
Proof. reflexivity. Qed.

Lemma definedScores_one (t : Trait) (d : TraitData.t) :
  definedScores t [d]
  = match TraitData.score d with
    | Some s => if Trait_eqb (TraitData.trait d) t then [s] else []
    | None => []
    end.
Proof.
  unfold definedScores. rewrite scored_one.
  destruct (Trait_eqb (TraitData.trait d) t), (TraitData.score d) as [s|] eqn:E;
    simpl; rewrite ?E; reflexivity.
Qed.

(** The object built by the loop holds, for each trait, the entry
    [entryOf] describes. *)
Lemma fold_accumulate_lookup (t : Trait) (l : list TraitData.t) :
  lookup t (fold_left accumulate l []) = entryOf t l.
Proof.
  induction l as [|d l IH] using rev_ind; [reflexivity|].
  rewrite fold_accumulate_snoc, accumulate_lookup, IH.
  unfold entryOf.
  rewrite definedScores_app, scored_app, definedScores_one, scored_one.
  destruct (TraitData.score d) as [s|] eqn:Es; simpl.
  - destruct (Trait_eqb (TraitData.trait d) t) eqn:E; simpl.
    + rewrite map_app, !fold_left_app, length_app. simpl.
      unfold definedScores.
      destruct (scored t l) as [|d0 l0]; reflexivity.
    + now rewrite !app_nil_r.
  - rewrite andb_false_r. now rewrite !app_nil_r.
Qed.

Lemma fold_left_Qplus_sum (l : list Q) (a : Q) :
  fold_left Qplus l a == a + sum l.
Proof.
  induction l as [|x l IH] in a |- *; simpl; [ring|].
  rewrite IH. ring.
Qed.

Lemma sum_Forall2 (l l' : list Q) : Forall2 Qeq l l' -> sum l == sum l'.
Proof.
  induction 1 as [|x y l l' Hxy _ IH]; simpl; [reflexivity|].
  now rewrite Hxy, IH.
Qed.

Lemma orNumber_zero (q : option Q) :
  Js.orNumber q 0 == match q with Some c => c | None => 0 end.
Proof.
  destruct q as [c|]; simpl; [|reflexivity].
  destruct (Qeq_bool c 0) eqn:E; [|reflexivity].
  symmetry. now apply Qeq_bool_eq.
Qed.

Lemma definedScores_length (t : Trait) (l : list TraitData.t) :
  List.length (definedScores t l) = List.length (scored t l).
Proof.
  unfold definedScores, scored.
  induction l as [|d l IH]; simpl; [reflexivity|].
  destruct (Trait_eqb (TraitData.trait d) t); simpl; [|assumption].
  destruct (TraitData.score d) as [s|] eqn:E; simpl; [|assumption].
  rewrite E. simpl. now rewrite IH.
Qed.

Lemma scored_nonempty (t : Trait) (l : list TraitData.t) :
  scored t l <> []
  <-> exists d, In d l /\ TraitData.trait d = t /\ TraitData.score d <> None.
Proof.
  split.
  - intros H. destruct (scored t l) as [|d l'] eqn:E; [congruence|].
    assert (In d (scored t l)) as Hin by (rewrite E; now left).
    apply filter_In in Hin as [Hin Hd].
    apply andb_true_iff in Hd as [Ht Hs]. apply Trait_eqb_eq in Ht.
    exists d. repeat split; try assumption.
    now destruct (TraitData.score d).
  - intros (d & Hin & Ht & Hs) E.
    assert (In d (scored t l)) as Hd.
    { apply filter_In. split; [assumption|].
      apply andb_true_iff. split; [now apply Trait_eqb_eq|].
      now destruct (TraitData.score d). }
    now rewrite E in Hd.
Qed.

Lemma entryOf_None (t : Trait) (l : list TraitData.t) :
  entryOf t l = None <-> scored t l = [].
Proof. unfold entryOf. destruct (scored t l); split; congruence. Qed.

Lemma entryOf_Some (t : Trait) (l : list TraitData.t) (a : Aggregate.t) :
  entryOf t l = Some a ->
  a = Aggregate.Build
        (fold_left Qplus (definedScores t l) 0)
        (fold_left Qplus
           (map (fun d => Js.orNumber (TraitData.confidence d) 0)
              (scored t l)) 0)
        (List.length (scored t l)).
Proof.
  unfold entryOf. destruct (scored t l) eqn:E; [discriminate|].
  intros H. injection H as <-. unfold definedScores. now rewrite E.
Qed.

Lemma getLatestTraitScores_traits (chatState : ChatState.t) :
  map TraitScore.trait (getLatestTraitScores chatState)
  = map fst (fold_left accumulate (ChatState.traitData chatState) []).
Proof.
  unfold getLatestTraitScores. rewrite map_map. apply map_ext.
  now intros [t a].
Qed.

Lemma getLatestTraitScores_In (chatState : ChatState.t) (t : Trait) :
  In t (map TraitScore.trait (getLatestTraitScores chatState))
  <-> scored t (ChatState.traitData chatState) <> [].
Proof.
  rewrite getLatestTraitScores_traits, <- entryOf_None,
    <- fold_accumulate_lookup, lookup_None_keys.
  split; [tauto|].
  intros H. destruct (in_dec (fun a b : Trait => ltac:(decide equality)) t
    (map fst (fold_left accumulate (ChatState.traitData chatState) [])));
    tauto.
Qed.

(** The badge row is empty exactly when no assessment carries a score. *)
Lemma getLatestTraitScores_empty (chatState : ChatState.t) :
  (List.length (getLatestTraitScores chatState) <? 1)%nat = true
  <-> forall d, In d (ChatState.traitData chatState) ->
                TraitData.score d = None.
Proof.
  split.
  - intros H d Hin.
    destruct (TraitData.score d) as [s|] eqn:E; [|reflexivity]. exfalso.
    assert (In (TraitData.trait d)
              (map TraitScore.trait (getLatestTraitScores chatState))) as Hk.
    { apply getLatestTraitScores_In, scored_nonempty.
      exists d. repeat split; [assumption|congruence]. }
    apply Nat.ltb_lt in H.
    destruct (getLatestTraitScores chatState); [contradiction|simpl in H; lia].
  - intros H. apply Nat.ltb_lt.
    destruct (getLatestTraitScores chatState) as [|r out] eqn:E;
      [simpl; lia|].
    exfalso.
    assert (In (TraitScore.trait r)
              (map TraitScore.trait (getLatestTraitScores chatState))) as Hk
      by (rewrite E; now left).
    apply getLatestTraitScores_In, scored_nonempty in Hk
      as (d & Hin & _ & Hs).
    now apply Hs, H.
Qed.

(** C6.  [getLatestTraitScores] lists each trait at most once; a trait is
    listed exactly when one of its assessments carries a score; the score
    listed is the arithmetic mean of the trait's defined scores, and the
    confidence listed is the sum of the confidences of those scored
    assessments, an absent one counted as 0, divided by their number.  On
    the history of two [awareness] assessments scored 3 and 5 without
    confidence the list is the single record awareness, 4, 0. *)
Theorem getLatestTraitScores_means (chatState : ChatState.t) :
  let traitData := ChatState.traitData chatState in
  let latestScores := getLatestTraitScores chatState in
  NoDup (map TraitScore.trait latestScores)
  /\ (forall t,
        In t (map TraitScore.trait latestScores)
        <-> exists d,
              In d traitData /\ TraitData.trait d = t
              /\ TraitData.score d <> None)
  /\ (forall r,
        In r latestScores ->
        let t := TraitScore.trait r in
        TraitScore.score r == mean (definedScores t traitData)
        /\ TraitScore.confidence r
           == sum (countedConfidences t traitData)
              / number_of_nat (List.length (definedScores t traitData)))
  /\ exists r,
       getLatestTraitScores Sample.threeAndFive = [r]
       /\ TraitScore.trait r = awareness
       /\ TraitScore.score r == 4
       /\ TraitScore.confidence r == 0.
Proof.
  intros traitData latestScores. split; [|split; [|split]].
  - unfold latestScores. rewrite getLatestTraitScores_traits.
    apply fold_accumulate_keys_NoDup.
  - intros t. unfold latestScores.
    now rewrite getLatestTraitScores_In, scored_nonempty.
  - intros r Hr t.
    apply in_map_iff in Hr as ([k a] & <- & Hin). simpl in t. subst t.
    apply lookup_In in Hin; [|apply fold_accumulate_keys_NoDup].
    rewrite fold_accumulate_lookup in Hin. fold traitData in Hin.
    apply entryOf_Some in Hin. subst a. simpl.
    unfold mean. rewrite definedScores_length. split.
    + rewrite fold_left_Qplus_sum. now rewrite Qplus_0_l.
    + rewrite fold_left_Qplus_sum, Qplus_0_l.
      apply Qdiv_comp; [|reflexivity].
      apply sum_Forall2. unfold countedConfidences.
      induction (scored k traitData) as [|d l IH]; simpl; constructor;
        [apply orNumber_zero|assumption].
  - eexists. split; [reflexivity|]. simpl. repeat split; reflexivity.
Qed.

End Aggregation.

(** ** What the handlers set *)

Lemma userMessages_snoc_ai (chatState : ChatState.t) (messages : list Message.t)
    (m : Message.t) :
  Message.type m = ai ->
  ChatState.messages chatState = messages ++ [m] ->
  userMessages chatState = filter
    (fun m => match Message.type m with user => true | ai => false end)
    messages.
Proof.
  intros Hm Heq. unfold userMessages. rewrite Heq, filter_app. simpl.
  rewrite Hm. apply app_nil_r.
Qed.

Lemma handleSubmit_catch_sets (error : Js.Thrown) (clock : Clock.t)
    (c : Chat.t) :
  let c' := handleSubmit_catch error clock c in
  Chat.chatState c'
  = ChatState.Build
      (ChatState.messages (Chat.chatState c) ++ [errorMessage error clock])
      (ChatState.traitData (Chat.chatState c))
      (ChatState.currentPriority (Chat.chatState c))
      (ChatState.currentIteration (Chat.chatState c))
      (ChatState.backendState (Chat.chatState c))
  /\ Chat.isLoading c' = false
  /\ Chat.isTerminated c' = Chat.isTerminated c
  /\ Chat.shouldContinue c' = Chat.shouldContinue c
  /\ Chat.isGeneratingPersona c' = Chat.isGeneratingPersona c.
Proof. repeat split; reflexivity. Qed.

(** A failed call reaches the [catch] block with an error whose description
    is the one of the failure. *)
Lemma handleSubmit_resume_failed (captured : ChatState.t)
    (fetched : Js.Fetched ChatData.t) (clock : Clock.t) (c : Chat.t) :
  callFailed fetched = true ->
  exists error,
    handleSubmit_resume captured fetched clock c
    = handleSubmit_catch error clock c
    /\ describe error = failureDescription fetched.
Proof.
  destruct fetched as [error|status json]; simpl; intros H.
  - now exists error.
  - rewrite H. now eexists.
Qed.

(** Whatever the outcome of the call, [handleSubmit] ends loading, never
    clears [isTerminated], never sets [shouldContinue] again and appends an
    assistant message only. *)
Lemma handleSubmit_resume_sets (captured : ChatState.t)
    (fetched : Js.Fetched ChatData.t) (clock : Clock.t) (c : Chat.t) :
  let c' := handleSubmit_resume captured fetched clock c in
  Chat.isLoading c' = false
  /\ (Chat.isTerminated c = true -> Chat.isTerminated c' = true)
  /\ (Chat.shouldContinue c = false -> Chat.shouldContinue c' = false)
  /\ Chat.isGeneratingPersona c' = Chat.isGeneratingPersona c
  /\ userMessages (Chat.chatState c') = userMessages (Chat.chatState c).
Proof.
  assert (forall error,
             let c' := handleSubmit_catch error clock c in
             Chat.isLoading c' = false
             /\ (Chat.isTerminated c = true -> Chat.isTerminated c' = true)
             /\ (Chat.shouldContinue c = false -> Chat.shouldContinue c' = false)
             /\ Chat.isGeneratingPersona c' = Chat.isGeneratingPersona c
             /\ userMessages (Chat.chatState c')
                = userMessages (Chat.chatState c)) as Hcatch.
  { intros error. cbv zeta. repeat split; try tauto.
    now apply userMessages_snoc_ai with (m := errorMessage error clock). }
  destruct fetched as [error|status json]; simpl; [apply Hcatch|].
  destruct (Js.ok status); simpl; [|apply Hcatch].
  destruct json as [error|data]; [apply Hcatch|].
  destruct (handleSubmit_success_others captured data clock c)
    as (_ & _ & _ & Hl & _ & _ & Hg).
  rewrite handleSubmit_success_isTerminated,
    handleSubmit_success_shouldContinue, handleSubmit_success_chatState.
  repeat split; try assumption.
  - intros ->. apply orb_true_r.
  - intros ->. apply andb_false_r.
  - now apply userMessages_snoc_ai with (m := aiMessage data clock).
Qed.

Lemma generatePersona_resume_sets (fetched : Js.Fetched PersonaData.t)
    (c : Chat.t) :
  let c' := fst (generatePersona_resume fetched c) in
  Chat.isGeneratingPersona c' = false
  /\ (Chat.isTerminated c = true -> Chat.isTerminated c' = true)
  /\ Chat.shouldContinue c' = Chat.shouldContinue c
  /\ Chat.isLoading c' = Chat.isLoading c
  /\ Chat.chatState c' = Chat.chatState c.
Proof.
  unfold generatePersona_resume.
  destruct fetched as [error|status [error|data]]; simpl;
    try destruct (Js.ok status); simpl; repeat split; tauto.
Qed.

Lemma handleSubmit_begin_sets (clock : Clock.t) (c c' : Chat.t)
    (request : ChatRequest.t) :
  handleSubmit_begin clock c = Some (c', request) ->
  Chat.isLoading c' = true
  /\ Chat.isTerminated c' = Chat.isTerminated c
  /\ Chat.shouldContinue c' = Chat.shouldContinue c
  /\ Chat.isGeneratingPersona c' = Chat.isGeneratingPersona c
  /\ ChatState.traitData (Chat.chatState c')
     = ChatState.traitData (Chat.chatState c)
  /\ ChatState.backendState (Chat.chatState c')
     = ChatState.backendState (Chat.chatState c).
Proof.
  unfold handleSubmit_begin.
  destruct ((Js.trim (Chat.input c) =? EmptyString)%string || Chat.isLoading c);
    [discriminate|].
  intros H. injection H as <- _. repeat split; reflexivity.
Qed.

(** ** Invariants of the page *)

Lemma step_keeps (e : Page.Event) (p p' : Page.t) :
  Page.step e p = Some p' ->
  (Chat.isTerminated (Page.ui p) = true ->
   Chat.isTerminated (Page.ui p') = true)
  /\ (Chat.shouldContinue (Page.ui p) = false ->
      Chat.shouldContinue (Page.ui p') = false)
  /\ (View.canSubmit (Page.ui p) = false ->
      userMessages (Chat.chatState (Page.ui p'))
      = userMessages (Chat.chatState (Page.ui p))).
Proof.
  destruct e as [uid sid|value|clock|fetched clock| |fetched| ]; simpl.
  - intros H. injection H as <-. simpl. tauto.
  - destruct (View.canType (Page.ui p)); [|discriminate].
    intros H. injection H as <-. simpl. tauto.
  - destruct (View.canSubmit (Page.ui p)); [|discriminate].
    destruct (handleSubmit_begin clock (Page.ui p)) as [[c request]|] eqn:E.
    + intros H. injection H as <-. simpl.
      destruct (handleSubmit_begin_sets _ _ _ _ E) as (_ & -> & -> & _).
      repeat split; try tauto. discriminate.
    + intros H. injection H as <-. tauto.
  - destruct (Page.chatCalls p) as [|captured calls]; [discriminate|].
    intros H. injection H as <-. simpl.
    destruct (handleSubmit_resume_sets captured fetched clock (Page.ui p))
      as (_ & Ht & Hs & _ & Hu).
    tauto.
  - destruct (View.canGeneratePersona (Page.ui p)); [|discriminate].
    unfold generatePersona_begin.
    destruct (ChatState.backendState (Chat.chatState (Page.ui p)));
      intros H; injection H as <-; simpl; tauto.
  - destruct (Page.personaCalls p) as [|n]; [discriminate|].
    intros H. injection H as <-. simpl.
    destruct (generatePersona_resume_sets fetched (Page.ui p))
      as (_ & Ht & -> & _ & ->).
    tauto.
  - destruct (Chat.showPersonaPopup (Page.ui p)); [|discriminate].
    intros H. injection H as <-. simpl. tauto.
Qed.

Lemma canSubmit_false (c : Chat.t) :
  Chat.isTerminated c = true \/ Chat.shouldContinue c = false ->
  View.canSubmit c = false /\ View.canType c = false.
Proof.
  unfold View.canSubmit, View.canType, View.formRendered,
    View.submitDisabled, View.inputDisabled.
  intros [-> | ->]; simpl; rewrite ?orb_true_r, ?andb_false_r; auto.
Qed.

(** Once the form is gone it stays gone, and the user adds no message. *)
Lemma run_terminated (events : list Page.Event) :
  forall p p',
    Chat.isTerminated (Page.ui p) = true ->
    Page.run events p = Some p' ->
    Chat.isTerminated (Page.ui p') = true
    /\ userMessages (Chat.chatState (Page.ui p'))
       = userMessages (Chat.chatState (Page.ui p)).
Proof.
  induction events as [|e events IH]; simpl; intros p p' Ht Hrun.
  - injection Hrun as <-. auto.
  - destruct (Page.step e p) as [p1|] eqn:E; [|discriminate].
    destruct (step_keeps _ _ _ E) as (Ht1 & _ & Hu).
    destruct (IH p1 p' (Ht1 Ht) Hrun) as [Ht' Hu'].
    split; [assumption|]. rewrite Hu'. apply Hu.
    now apply canSubmit_false; left.
Qed.

(** Once [shouldContinue] is cleared it stays cleared, and the user adds no
    message. *)
Lemma run_stopped (events : list Page.Event) :
  forall p p',
    Chat.shouldContinue (Page.ui p) = false ->
    Page.run events p = Some p' ->
    Chat.shouldContinue (Page.ui p') = false
    /\ userMessages (Chat.chatState (Page.ui p'))
       = userMessages (Chat.chatState (Page.ui p)).
Proof.
  induction events as [|e events IH]; simpl; intros p p' Hs Hrun.
  - injection Hrun as <-. auto.
  - destruct (Page.step e p) as [p1|] eqn:E; [|discriminate].
    destruct (step_keeps _ _ _ E) as (_ & Hs1 & Hu).
    destruct (IH p1 p' (Hs1 Hs) Hrun) as [Hs' Hu'].
    split; [assumption|]. rewrite Hu'. apply Hu.
    now apply canSubmit_false; right.
Qed.

Lemma step_refused (p : Page.t) :
  View.canSubmit (Page.ui p) = false ->
  View.canType (Page.ui p) = false ->
  (forall clock, Page.step (Page.Submitted clock) p = None)
  /\ (forall value, Page.step (Page.Typed value) p = None).
Proof. intros Hs Ht. simpl. now rewrite Hs, Ht. Qed.

Lemma consistent_initial : consistent Page.initial.
Proof. split; reflexivity. Qed.

Lemma consistent_step (e : Page.Event) (p p' : Page.t) :
  consistent p -> Page.step e p = Some p' -> consistent p'.
Proof.
  intros [Hp Hc].
  destruct e as [uid sid|value|clock|fetched clock| |fetched| ]; simpl.
  - intros H. injection H as <-. now split.
  - destruct (View.canType (Page.ui p)); [|discriminate].
    intros H. injection H as <-. now split.
  - destruct (View.canSubmit (Page.ui p)) eqn:Hs; [|discriminate].
    destruct (handleSubmit_begin clock (Page.ui p)) as [[c request]|] eqn:E.
    + intros H. injection H as <-.
      destruct (handleSubmit_begin_sets _ _ _ _ E)
        as (Hl & _ & _ & Hg & Ht & _).
      assert (Chat.isLoading (Page.ui p) = false) as Hload.
      { unfold View.canSubmit, View.submitDisabled in Hs.
        destruct (Chat.isLoading (Page.ui p)); [|reflexivity].
        simpl in Hs. now rewrite andb_false_r in Hs. }
      split; simpl.
      * now rewrite Hg.
      * destruct (Page.chatCalls p) as [|captured [|? ?]]; simpl.
        -- now split.
        -- destruct Hc as [Hc _]. congruence.
        -- contradiction.
    + intros H. injection H as <-. now split.
  - destruct (Page.chatCalls p) as [|captured [|? ?]];
      [discriminate| |contradiction].
    intros H. injection H as <-.
    destruct (handleSubmit_resume_sets captured fetched clock (Page.ui p))
      as (Hl & _ & _ & Hg & _).
    split; simpl; [now rewrite Hg|assumption].
  - destruct (View.canGeneratePersona (Page.ui p)) eqn:Hs; [|discriminate].
    unfold View.canGeneratePersona, View.personaButtonRendered,
      View.personaButtonDisabled in Hs.
    apply andb_true_iff in Hs as [Hr Hd].
    apply negb_true_iff, orb_false_iff in Hd as [Hg _].
    rewrite Hg in Hp.
    unfold generatePersona_begin.
    destruct (ChatState.backendState (Chat.chatState (Page.ui p)));
      [|discriminate].
    intros H. injection H as <-. split; simpl; [now rewrite Hp|assumption].
  - destruct (Page.personaCalls p) as [|n] eqn:En; [discriminate|].
    intros H. injection H as <-.
    destruct (generatePersona_resume_sets fetched (Page.ui p))
      as (Hg & _ & _ & Hl & Hcs).
    split; simpl.
    + rewrite Hg. destruct (Chat.isGeneratingPersona (Page.ui p)); lia.
    + rewrite Hl, Hcs. assumption.
  - destruct (Chat.showPersonaPopup (Page.ui p)); [|discriminate].
    intros H. injection H as <-. now split.
Qed.

Lemma consistent_run (events : list Page.Event) :
  forall p p', consistent p -> Page.run events p = Some p' -> consistent p'.
Proof.
  induction events as [|e events IH]; simpl; intros p p' Hp Hrun.
  - now injection Hrun as <-.
  - destruct (Page.step e p) as [p1|] eqn:E; [|discriminate].
    eauto using consistent_step.
Qed.

Lemma reachable_consistent (p : Page.t) : Page.Reachable p -> consistent p.
Proof. intros [events H]. eauto using consistent_run, consistent_initial. Qed.

(** The closure reads only the trait assessments it captured. *)
Lemma updateChatState_captured (captured prev : ChatState.t)
    (data : ChatData.t) (clock : Clock.t) :
  ChatState.traitData captured = ChatState.traitData prev ->
  updateChatState captured data clock prev = reconcile prev data clock.
Proof.
  intros H. unfold reconcile, updateChatState. f_equal. f_equal.
  unfold extractNewTraitData, traits. simpl fold_left.
  unfold extractTrait. now rewrite H.
Qed.

(** X20.  In every state the page reaches, a chat response that settles is
    reconciled against the current [chatState]: the assessments the closure
    captured when the message was submitted are still the current ones. *)
Lemma reachable_success_reconciles (p p' : Page.t) (status : Z)
    (data : ChatData.t) (clock : Clock.t) :
  Page.Reachable p ->
  Js.ok status = true ->
  Page.step (Page.ChatSettled (Js.Resolved status (inr data)) clock) p
  = Some p' ->
  Chat.chatState (Page.ui p')
  = reconcile (Chat.chatState (Page.ui p)) data clock.
Proof.
  intros Hr Hok. apply reachable_consistent in Hr as [_ Hc]. simpl.
  destruct (Page.chatCalls p) as [|captured [|? ?]];
    [discriminate| |contradiction].
  intros H. injection H as <-. cbn [Page.ui].
  unfold handleSubmit_resume. rewrite Hok. cbn [negb].
  rewrite handleSubmit_success_chatState.
  apply updateChatState_captured. apply Hc.
Qed.

(** ** The chat handler *)

(** C3.  When the [response] of a chat response is ["terminate"], the
    handler sets [isTerminated], whatever [continue_conversation] holds and
    whatever the state was: the form is no longer rendered. *)
Theorem terminate_sentinel_marks_terminated
    (captured : ChatState.t) (status : Z) (data : ChatData.t)
    (clock : Clock.t) (c : Chat.t) :
  Js.ok status = true ->
  ChatData.response data = "terminate"%string ->
  let c' :=
    handleSubmit_resume captured (Js.Resolved status (inr data)) clock c in
  Chat.isTerminated c' = true /\ View.formRendered c' = false.
Proof.
  intros Hok Hresp c'.
  assert (Chat.isTerminated c' = true) as H.
  { unfold c', handleSubmit_resume. rewrite Hok. cbn [negb].
    now rewrite handleSubmit_success_isTerminated, Hresp. }
  split; [assumption|]. unfold View.formRendered. now rewrite H.
Qed.

Lemma terminate_sentinel_marks_terminated_witness :
  UpdatedState.continue_conversation
    (ChatData.updated_state Sample.terminate) = true
  /\ Chat.isTerminated Sample.midConversation = false
  /\ let c' :=
       handleSubmit_resume (Chat.chatState Sample.midConversation)
         (Js.Resolved 200 (inr Sample.terminate)) Sample.clock
         Sample.midConversation in
     Chat.isTerminated c' = true /\ View.formRendered c' = false.
Proof.
  split; [reflexivity|]. split; [reflexivity|].
  apply (terminate_sentinel_marks_terminated
           (Chat.chatState Sample.midConversation) 200 Sample.terminate
           Sample.clock Sample.midConversation); reflexivity.
Defined.

(** C4.  When [continue_conversation] is false in a chat response, the
    message appended to the transcript is an assistant message whose
    content is [updated_state.persona], and [shouldContinue] is cleared: the
    input and the submit button are disabled, and in every later state of
    the page they stay so, no typing and no submission is offered and the
    user has added no message. *)
Theorem final_reply_shows_persona
    (captured : ChatState.t) (status : Z) (data : ChatData.t)
    (clock : Clock.t) (c : Chat.t) :
  Js.ok status = true ->
  UpdatedState.continue_conversation (ChatData.updated_state data) = false ->
  let c' :=
    handleSubmit_resume captured (Js.Resolved status (inr data)) clock c in
  (exists m,
      ChatState.messages (Chat.chatState c')
      = ChatState.messages (Chat.chatState c) ++ [m]
      /\ Message.type m = ai
      /\ Message.content m = UpdatedState.persona (ChatData.updated_state data))
  /\ Chat.shouldContinue c' = false
  /\ View.inputDisabled c' = true
  /\ View.submitDisabled c' = true
  /\ forall p events p',
       Page.ui p = c' ->
       Page.run events p = Some p' ->
       View.inputDisabled (Page.ui p') = true
       /\ View.submitDisabled (Page.ui p') = true
       /\ (forall clock', Page.step (Page.Submitted clock') p' = None)
       /\ (forall value, Page.step (Page.Typed value) p' = None)
       /\ userMessages (Chat.chatState (Page.ui p'))
          = userMessages (Chat.chatState c').
Proof.
  intros Hok Hcont c'.
  assert (c' = handleSubmit_success captured data clock c) as Hc'.
  { unfold c', handleSubmit_resume. now rewrite Hok. }
  assert (Chat.shouldContinue c' = false) as Hs.
  { now rewrite Hc', handleSubmit_success_shouldContinue, Hcont. }
  assert (forall x, Chat.shouldContinue x = false ->
                    View.inputDisabled x = true
                    /\ View.submitDisabled x = true) as Hdis.
  { intros x Hx. unfold View.inputDisabled, View.submitDisabled.
    rewrite Hx. simpl. now rewrite !orb_true_r. }
  split; [|split; [assumption|split; [apply Hdis, Hs|split; [apply Hdis, Hs|]]]].
  - exists (aiMessage data clock).
    rewrite Hc', handleSubmit_success_chatState.
    split; [reflexivity|]. split; [reflexivity|].
    unfold aiMessage. simpl. now rewrite Hcont.
  - intros p events p' Hui Hrun.
    destruct (run_stopped events p p') as [Hs' Hu];
      [now rewrite Hui|assumption|].
    destruct (canSubmit_false (Page.ui p') (or_intror Hs')) as [Hcs Hct].
    destruct (step_refused p' Hcs Hct) as [Hsub Htyp].
    rewrite Hu, Hui.
    repeat split; try assumption; apply Hdis, Hs'.
Qed.

Lemma final_reply_shows_persona_witness :
  let c' :=
    handleSubmit_resume (Chat.chatState Sample.midConversation)
      (Js.Resolved 200 (inr Sample.final)) Sample.clock
      Sample.midConversation in
  ChatData.response Sample.final = "Thank you."%string
  /\ (exists m,
         ChatState.messages (Chat.chatState c')
         = ChatState.messages (Chat.chatState Sample.midConversation) ++ [m]
         /\ Message.type m = ai
         /\ Message.content m = Some "A careful planner."%string)
  /\ View.inputDisabled c' = true
  /\ View.submitDisabled c' = true.
Proof.
  cbv zeta. split; [reflexivity|].
  destruct (final_reply_shows_persona
              (Chat.chatState Sample.midConversation) 200 Sample.final
              Sample.clock Sample.midConversation eq_refl eq_refl)
    as (Hm & _ & Hi & Hs & _).
  repeat split; assumption.
Defined.

(** C5.  When the chat call fails, by a transport error or a status outside
    200-299, the handler appends exactly one message to the messages held
    when the call settles, an assistant message whose content ends with the
    description of the failure; the trait assessments, the priority, the
    iteration and the backend state blob are unchanged. *)
Theorem chat_failure_appends_one_error_message
    (captured : ChatState.t) (fetched : Js.Fetched ChatData.t)
    (clock : Clock.t) (c : Chat.t) :
  callFailed fetched = true ->
  let before := Chat.chatState c in
  let after := Chat.chatState (handleSubmit_resume captured fetched clock c) in
  (exists m,
      ChatState.messages after = ChatState.messages before ++ [m]
      /\ Message.type m = ai
      /\ Message.content m
         = Some ("I apologize, but I'm having trouble connecting right now. Please try again."
                 ++ newline ++ "Error: " ++ failureDescription fetched)%string)
  /\ ChatState.traitData after = ChatState.traitData before
  /\ ChatState.currentPriority after = ChatState.currentPriority before
  /\ ChatState.currentIteration after = ChatState.currentIteration before
  /\ ChatState.backendState after = ChatState.backendState before.
Proof.
  intros Hfail before after.
  destruct (handleSubmit_resume_failed captured fetched clock c Hfail)
    as (error & Heq & Hdesc).
  unfold after. rewrite Heq.
  destruct (handleSubmit_catch_sets error clock c) as (-> & _).
  split; [|repeat split].
  exists (errorMessage error clock). simpl. rewrite Hdesc. repeat split.
Qed.

Lemma chat_failure_appends_one_error_message_witness :
  let fetched : Js.Fetched ChatData.t := Js.Resolved 503 (inl (Js.OtherValue "invalid json")) in
  let before := Chat.chatState Sample.midConversation in
  let after :=
    Chat.chatState
      (handleSubmit_resume before fetched Sample.clock Sample.midConversation) in
  callFailed fetched = true
  /\ failureDescription fetched = "HTTP error! status: 503"%string
  /\ List.length (ChatState.messages after)
     = S (List.length (ChatState.messages before))
  /\ ChatState.traitData after = ChatState.traitData before
  /\ ChatState.backendState after = ChatState.backendState before.
Proof.
  cbv zeta. split; [reflexivity|]. split; [reflexivity|].
  destruct (chat_failure_appends_one_error_message
              (Chat.chatState Sample.midConversation)
              (Js.Resolved 503 (inl (Js.OtherValue "invalid json")))
              Sample.clock Sample.midConversation eq_refl)
    as ((m & Hm & _) & Ht & _ & _ & Hb).
  split; [|split; assumption].
  rewrite Hm, length_app. simpl. lia.
Defined.

(** ** The persona handler *)

(** C9.  When the persona call resolves with a status in 200-299 and a body
    that decodes, the handler sets [isTerminated] (and stores the persona
    and opens the popup) without touching [shouldContinue]: the form is no
    longer rendered, and in every later state of the page it stays so, no
    typing and no submission is offered and the user has added no
    message. *)
Theorem persona_success_terminates
    (status : Z) (data : PersonaData.t) (c : Chat.t) :
  Js.ok status = true ->
  let c' := fst (generatePersona_resume (Js.Resolved status (inr data)) c) in
  Chat.isTerminated c' = true
  /\ View.formRendered c' = false
  /\ Chat.personaData c' = PersonaData.response data
  /\ Chat.showPersonaPopup c' = true
  /\ Chat.shouldContinue c' = Chat.shouldContinue c
  /\ forall p events p',
       Page.ui p = c' ->
       Page.run events p = Some p' ->
       View.formRendered (Page.ui p') = false
       /\ (forall clock, Page.step (Page.Submitted clock) p' = None)
       /\ (forall value, Page.step (Page.Typed value) p' = None)
       /\ userMessages (Chat.chatState (Page.ui p'))
          = userMessages (Chat.chatState c').
Proof.
  intros Hok c'.
  assert (c' = Setters.setIsGeneratingPersona false
                 (generatePersona_success data c)) as Hc'.
  { unfold c', generatePersona_resume. now rewrite Hok. }
  assert (Chat.isTerminated c' = true) as Hterm by now rewrite Hc'.
  split; [assumption|].
  split; [unfold View.formRendered; now rewrite Hterm|].
  split; [now rewrite Hc'|]. split; [now rewrite Hc'|].
  split; [now rewrite Hc'|].
  intros p events p' Hui Hrun.
  destruct (run_terminated events p p') as [Ht Hu];
    [now rewrite Hui|assumption|].
  destruct (canSubmit_false (Page.ui p') (or_introl Ht)) as [Hcs Hct].
  destruct (step_refused p' Hcs Hct) as [Hsub Htyp].
  unfold View.formRendered. rewrite Ht, Hu, Hui.
  repeat split; assumption.
Qed.

Lemma persona_success_terminates_witness :
  let c' :=
    fst (generatePersona_resume
           (Js.Resolved 200 (inr (PersonaData.Build "A careful planner.")))
           Sample.midConversation) in
  Js.ok 200 = true
  /\ Chat.isTerminated Sample.midConversation = false
  /\ Chat.shouldContinue c' = true
  /\ Chat.isTerminated c' = true
  /\ View.formRendered c' = false.
Proof.
  cbv zeta. split; [reflexivity|]. split; [reflexivity|].
  destruct (persona_success_terminates 200
              (PersonaData.Build "A careful planner.")
              Sample.midConversation eq_refl)
    as (Ht & Hf & _ & _ & Hs & _).
  split; [now rewrite Hs|]. split; assumption.
Defined.

Lemma getLatestTraitScores_nonempty (chatState : ChatState.t) :
  (List.length (getLatestTraitScores chatState) <? 1) = false ->
  exists d,
    In d (ChatState.traitData chatState) /\ TraitData.score d <> None.
Proof.
  intros H. apply Nat.ltb_ge in H.
  destruct (getLatestTraitScores chatState) as [|r out] eqn:E;
    [simpl in H; lia|].
  assert (In (TraitScore.trait r)
            (map TraitScore.trait (getLatestTraitScores chatState))) as Hk
    by (rewrite E; now left).
  apply getLatestTraitScores_In, scored_nonempty in Hk as (d & Hin & _ & Hs).
  now exists d.
Qed.

(** C10.  The persona button is rendered exactly when the backend state
    blob is set; it is disabled exactly when [isGeneratingPersona] is set or
    no assessment carries a score, and [isGeneratingPersona] is set in every
    reachable state with a persona call in flight; so a click that the page
    accepts finds the blob set, a scored assessment and no persona call in
    flight.  Called with the blob absent, [generatePersona] alerts and
    returns: the state is unchanged and no request is issued. *)
Theorem persona_needs_blob_and_score :
  (forall c,
      View.personaButtonRendered c = true
      <-> ChatState.backendState (Chat.chatState c) <> None)
  /\ (forall c,
         View.personaButtonDisabled c = true
         <-> Chat.isGeneratingPersona c = true
             \/ forall d, In d (ChatState.traitData (Chat.chatState c)) ->
                          TraitData.score d = None)
  /\ (forall p,
         Page.Reachable p ->
         0 < Page.personaCalls p ->
         Chat.isGeneratingPersona (Page.ui p) = true
         /\ View.personaButtonDisabled (Page.ui p) = true)
  /\ (forall p p',
         Page.Reachable p ->
         Page.step Page.PersonaClicked p = Some p' ->
         (exists blob,
             ChatState.backendState (Chat.chatState (Page.ui p)) = Some blob)
         /\ (exists d,
                In d (ChatState.traitData (Chat.chatState (Page.ui p)))
                /\ TraitData.score d <> None)
         /\ Page.personaCalls p = 0
         /\ Page.personaCalls p' = 1)
  /\ (forall c,
         ChatState.backendState (Chat.chatState c) = None ->
         exists text, generatePersona_begin c = (c, Alert text)).
Proof.
  split; [|split; [|split; [|split]]].
  - intros c. unfold View.personaButtonRendered.
    destruct (ChatState.backendState (Chat.chatState c)); simpl;
      split; congruence.
  - intros c. unfold View.personaButtonDisabled.
    rewrite orb_true_iff. now rewrite getLatestTraitScores_empty.
  - intros p Hr Hcalls. apply reachable_consistent in Hr as [Hp _].
    unfold View.personaButtonDisabled.
    destruct (Chat.isGeneratingPersona (Page.ui p)); [auto|lia].
  - intros p p' Hr. apply reachable_consistent in Hr as [Hp _]. simpl.
    destruct (View.canGeneratePersona (Page.ui p)) eqn:Hs; [|discriminate].
    unfold View.canGeneratePersona, View.personaButtonRendered,
      View.personaButtonDisabled in Hs.
    apply andb_true_iff in Hs as [Hb Hd].
    apply negb_true_iff, orb_false_iff in Hd as [Hg Hl].
    rewrite Hg in Hp. unfold generatePersona_begin.
    destruct (ChatState.backendState (Chat.chatState (Page.ui p))) as [blob|];
      [|discriminate].
    intros H. injection H as <-. simpl.
    split; [now exists blob|].
    split; [now apply getLatestTraitScores_nonempty|].
    split; [assumption|now rewrite Hp].
  - intros c H. unfold generatePersona_begin. rewrite H. now eexists.
Qed.

Lemma persona_needs_blob_and_score_witness :
  let p := Page.Build Sample.midConversation [] 0 in
  (exists p', Page.step Page.PersonaClicked p = Some p')
  /\ View.personaButtonRendered Sample.midConversation = true
  /\ ChatState.backendState (Chat.chatState Sample.midConversation) <> None
  /\ Page.step Page.PersonaClicked Page.initial = None
  /\ exists text,
       generatePersona_begin Chat.initial = (Chat.initial, Alert text).
Proof.
  cbv zeta.
  destruct persona_needs_blob_and_score as (Hr & _ & _ & _ & Hb).
  split; [eexists; reflexivity|].
  split; [reflexivity|].
  split; [now apply Hr|].
  split; [reflexivity|].
  apply Hb. reflexivity.
Defined.

(** * Further properties of the page *)

(** ** The records of a reconciliation, listed *)

Lemma builtAt_length (us : UpdatedState.t) (t : Trait) (indices : list nat) :
  forall timestamp,
    List.length (builtAt us t indices timestamp) = List.length indices.
Proof.
  induction indices as [|i indices IH]; intros ts; simpl;
    [reflexivity|now rewrite IH].
Qed.

Lemma forLoop_builtAt (us : UpdatedState.t) (trait : Trait)
    (currentTime : Z) (n : nat) :
  forall i newTraitData,
    forLoop n i trait (scoresOf us trait) (confidencesOf us trait)
      (sentencesOf us trait) (rationalesOf us trait) currentTime newTraitData
    = newTraitData
      ++ builtAt us trait
           (pushed (scoresOf us trait) (sentencesOf us trait) i n)
           (currentTime + Z.of_nat (List.length newTraitData)).
Proof.
  induction n as [|n IH]; intros i acc; simpl.
  - now rewrite app_nil_r.
  - rewrite IH. unfold pushed. simpl.
    destruct (hasSentenceOrScore (scoresOf us trait) (sentencesOf us trait) i);
      [|reflexivity].
    rewrite <- app_assoc. simpl. rewrite length_app. simpl.
    do 3 f_equal. lia.
Qed.

Lemma extractTrait_builtAt (captured : ChatState.t) (us : UpdatedState.t)
    (currentTime : Z) (newTraitData : list TraitData.t) (trait : Trait) :
  extractTrait captured us currentTime newTraitData trait
  = newTraitData
    ++ builtAt us trait (pushedOf captured us trait)
         (currentTime + Z.of_nat (List.length newTraitData)).
Proof.
  unfold extractTrait, pushedOf.
  fold (scoresOf us trait) (confidencesOf us trait) (sentencesOf us trait)
    (rationalesOf us trait).
  cbv zeta.
  fold (maxLengthOf us trait).
  set (k := existingCount trait (ChatState.traitData captured)).
  destruct ((k <? _) || (k <? _) || (k <? _)) eqn:G.
  - apply forLoop_builtAt.
  - apply orb_false_iff in G as [G Gr]. apply orb_false_iff in G as [Gs Gt].
    apply Nat.ltb_ge in Gs, Gt, Gr.
    rewrite pushed_beyond by assumption. simpl. now rewrite app_nil_r.
Qed.

Lemma fold_extractTrait_listing (captured : ChatState.t)
    (us : UpdatedState.t) (currentTime : Z) (ts : list Trait) :
  forall newTraitData,
    fold_left (extractTrait captured us currentTime) ts newTraitData
    = newTraitData
      ++ listing captured us ts
           (currentTime + Z.of_nat (List.length newTraitData)).
Proof.
  induction ts as [|t ts IH]; intros acc; simpl.
  - now rewrite app_nil_r.
  - rewrite IH, extractTrait_builtAt, <- app_assoc, length_app,
      builtAt_length.
    do 3 f_equal. lia.
Qed.

Lemma extractNewTraitData_listing (captured : ChatState.t)
    (us : UpdatedState.t) (currentTime : Z) :
  extractNewTraitData captured us currentTime
  = listing captured us traits currentTime.
Proof.
  unfold extractNewTraitData.
  rewrite fold_extractTrait_listing. cbn [List.length app Z.of_nat].
  now rewrite Z.add_0_r.
Qed.

(** X1.  The records a reconciliation materializes are listed trait after
    trait in the order of [traits], for each trait the indices it pushes in
    increasing order, and they are stamped [currentTime], [currentTime + 1],
    ... in that order. *)
Theorem materialized_listing (previous : ChatState.t) (data : ChatData.t)
    (clock : Clock.t) :
  materialized previous data clock
  = listing previous (ChatData.updated_state data) traits
      (Clock.currentTime clock).
Proof. apply extractNewTraitData_listing. Qed.

Lemma builtAt_nth (us : UpdatedState.t) (t : Trait) (indices : list nat) :
  forall timestamp k d,
    nth_error (builtAt us t indices timestamp) k = Some d ->
    TraitData.timestamp d = Some (timestamp + Z.of_nat k)%Z
    /\ TraitData.trait d = t
    /\ exists i,
         In i indices
         /\ d = traitDataAt t (scoresOf us t) (confidencesOf us t)
                  (sentencesOf us t) (rationalesOf us t) i
                  (timestamp + Z.of_nat k).
Proof.
  induction indices as [|i indices IH]; intros ts k d; simpl.
  - now destruct k.
  - destruct k as [|k]; simpl.
    + intros H. injection H as <-. rewrite Z.add_0_r.
      repeat split. exists i. split; [now left|reflexivity].
    + intros H. apply IH in H as (Hts & Ht & j & Hj & Hd).
      replace (ts + Z.pos (Pos.of_succ_nat k))%Z
        with (ts + 1 + Z.of_nat k)%Z by lia.
      repeat split; try assumption. exists j. split; [now right|assumption].
Qed.

Lemma listing_nth (captured : ChatState.t) (us : UpdatedState.t)
    (ts : list Trait) :
  forall timestamp k d,
    nth_error (listing captured us ts timestamp) k = Some d ->
    In (TraitData.trait d) ts
    /\ exists i,
         In i (pushedOf captured us (TraitData.trait d))
         /\ d = traitDataAt (TraitData.trait d)
                  (scoresOf us (TraitData.trait d))
                  (confidencesOf us (TraitData.trait d))
                  (sentencesOf us (TraitData.trait d))
                  (rationalesOf us (TraitData.trait d)) i
                  (timestamp + Z.of_nat k).
Proof.
  induction ts as [|t ts IH]; intros timestamp k d; simpl.
  - now destruct k.
  - set (n := List.length (pushedOf captured us t)).
    destruct (Nat.lt_ge_cases k n) as [Hlt|Hge].
    + rewrite nth_error_app1 by now rewrite builtAt_length.
      intros H. apply builtAt_nth in H as (_ & Ht & i & Hi & Hd).
      rewrite Ht. split; [now left|]. exists i. now split.
    + rewrite nth_error_app2 by now rewrite builtAt_length.
      rewrite builtAt_length. fold n.
      intros H. apply IH in H as (Hin & i & Hi & Hd).
      split; [now right|]. exists i. split; [assumption|].
      replace (timestamp + Z.of_nat k)%Z
        with (timestamp + Z.of_nat n + Z.of_nat (k - n))%Z by lia.
      assumption.
Qed.

(** X2.  The record at position [k] of what a reconciliation materializes
    is stamped [currentTime + k]: the stamps of one reconciliation are
    distinct and increase along the list. *)
Theorem materialized_timestamps (previous : ChatState.t) (data : ChatData.t)
    (clock : Clock.t) (k : nat) (d : TraitData.t) :
  nth_error (materialized previous data clock) k = Some d ->
  TraitData.timestamp d = Some (Clock.currentTime clock + Z.of_nat k)%Z.
Proof.
  unfold materialized. rewrite extractNewTraitData_listing.
  intros H. apply listing_nth in H as (_ & i & _ & ->). reflexivity.
Qed.

Lemma materialized_timestamps_witness :
  exists d,
    nth_error
      (materialized (Chat.chatState Chat.initial) (Sample.uniform 3)
         Sample.clock) 2 = Some d
    /\ TraitData.timestamp d = Some 1002%Z.
Proof.
  eexists. split; [reflexivity|].
  apply (materialized_timestamps (Chat.chatState Chat.initial)
           (Sample.uniform 3) Sample.clock 2).
  reflexivity.
Defined.

(** X3.  Every record a reconciliation materializes carries a non-empty
    sentence or a score, and a timestamp; it is built from an index the
    loop pushes for its trait. *)
Theorem materialized_records_have_content (previous : ChatState.t)
    (data : ChatData.t) (clock : Clock.t) (d : TraitData.t) :
  In d (materialized previous data clock) ->
  (Js.truthyString (TraitData.sentence d) || Js.isDefined (TraitData.score d))
  = true
  /\ TraitData.timestamp d <> None
  /\ exists i,
       In i (pushedOf previous (ChatData.updated_state data)
               (TraitData.trait d))
       /\ builtFrom (ChatData.updated_state data) i d.
Proof.
  intros Hin. apply In_nth_error in Hin as [k Hk].
  unfold materialized in Hk. rewrite extractNewTraitData_listing in Hk.
  apply listing_nth in Hk as (_ & i & Hi & Hd).
  assert (builtFrom (ChatData.updated_state data) i d) as Hb
    by (eexists; exact Hd).
  split; [|split; [|now exists i]].
  - unfold pushedOf, pushed in Hi. apply filter_In in Hi as [_ Hv].
    rewrite Hd. exact Hv.
  - rewrite Hd. discriminate.
Qed.

Lemma materialized_records_have_content_witness :
  exists d,
    In d (materialized (Chat.chatState Chat.initial)
            Sample.emptyFirstSentence Sample.clock)
    /\ TraitData.sentence d = Some "Tracks monthly spending."%string
    /\ (Js.truthyString (TraitData.sentence d)
        || Js.isDefined (TraitData.score d)) = true.
Proof.
  eexists. split; [left; reflexivity|]. split; [reflexivity|].
  apply (materialized_records_have_content (Chat.chatState Chat.initial)
           Sample.emptyFirstSentence Sample.clock).
  left. reflexivity.
Defined.

(** ** The transcript along a run of the page *)

Lemma handleSubmit_begin_appends (clock : Clock.t) (c c' : Chat.t)
    (request : ChatRequest.t) :
  handleSubmit_begin clock c = Some (c', request) ->
  Chat.isLoading c = false
  /\ Js.trim (Chat.input c) <> EmptyString
  /\ ChatRequest.message request = Js.trim (Chat.input c)
  /\ ChatRequest.state request = ChatState.backendState (Chat.chatState c)
  /\ ChatRequest.user_id request = Chat.userId c
  /\ ChatRequest.session_id request = Chat.sessionId c
  /\ Chat.input c' = EmptyString
  /\ exists m,
       ChatState.messages (Chat.chatState c')
       = ChatState.messages (Chat.chatState c) ++ [m]
       /\ Message.type m = user
       /\ Message.content m = Some (Js.trim (Chat.input c)).
Proof.
  unfold handleSubmit_begin.
  destruct (Js.trim (Chat.input c) =? EmptyString)%string eqn:E;
    [discriminate|].
  destruct (Chat.isLoading c); [discriminate|].
  apply String.eqb_neq in E.
  intros H. injection H as <- <-. simpl.
  repeat split; try assumption. eexists. repeat split.
Qed.

(** Whatever the outcome of the call, the handler appends one message of
    the assistant and leaves the assessments as they are or longer. *)
Lemma handleSubmit_resume_appends (captured : ChatState.t)
    (fetched : Js.Fetched ChatData.t) (clock : Clock.t) (c : Chat.t) :
  exists m traitData,
    ChatState.messages
      (Chat.chatState (handleSubmit_resume captured fetched clock c))
    = ChatState.messages (Chat.chatState c) ++ [m]
    /\ Message.type m = ai
    /\ ChatState.traitData
         (Chat.chatState (handleSubmit_resume captured fetched clock c))
       = ChatState.traitData (Chat.chatState c) ++ traitData.
Proof.
  assert (forall error,
             exists m traitData,
               ChatState.messages
                 (Chat.chatState (handleSubmit_catch error clock c))
               = ChatState.messages (Chat.chatState c) ++ [m]
               /\ Message.type m = ai
               /\ ChatState.traitData
                    (Chat.chatState (handleSubmit_catch error clock c))
                  = ChatState.traitData (Chat.chatState c) ++ traitData)
    as Hcatch.
  { intros error. exists (errorMessage error clock), []. simpl.
    now rewrite app_nil_r. }
  destruct fetched as [error|status json]; simpl; [apply Hcatch|].
  destruct (Js.ok status); simpl; [|apply Hcatch].
  destruct json as [error|data]; [apply Hcatch|].
  rewrite handleSubmit_success_chatState.
  eexists. eexists. repeat split.
Qed.

(** X4.  Whatever the outcome of the chat call (rejected, any status, a
    body that decodes or not), the handler clears [isLoading] and appends
    exactly one message, of the assistant, to the transcript. *)
Theorem handleSubmit_always_answers (captured : ChatState.t)
    (fetched : Js.Fetched ChatData.t) (clock : Clock.t) (c : Chat.t) :
  let c' := handleSubmit_resume captured fetched clock c in
  Chat.isLoading c' = false
  /\ exists m,
       ChatState.messages (Chat.chatState c')
       = ChatState.messages (Chat.chatState c) ++ [m]
       /\ Message.type m = ai.
Proof.
  cbv zeta. split.
  - apply handleSubmit_resume_sets.
  - destruct (handleSubmit_resume_appends captured fetched clock c)
      as (m & _ & Hm & Ht & _).
    now exists m.
Qed.

Lemma step_appends (e : Page.Event) (p p' : Page.t) :
  Page.step e p = Some p' ->
  exists messages traitData,
    ChatState.messages (Chat.chatState (Page.ui p'))
    = ChatState.messages (Chat.chatState (Page.ui p)) ++ messages
    /\ ChatState.traitData (Chat.chatState (Page.ui p'))
       = ChatState.traitData (Chat.chatState (Page.ui p)) ++ traitData.
Proof.
  assert (exists messages traitData : list _,
             ChatState.messages (Chat.chatState (Page.ui p))
             = ChatState.messages (Chat.chatState (Page.ui p)) ++ messages
             /\ ChatState.traitData (Chat.chatState (Page.ui p))
                = ChatState.traitData (Chat.chatState (Page.ui p))
                  ++ traitData) as Hsame.
  { exists [], []. now rewrite !app_nil_r. }
  destruct e as [uid sid|value|clock|fetched clock| |fetched| ]; simpl.
  - intros H. injection H as <-. exact Hsame.
  - destruct (View.canType (Page.ui p)); [|discriminate].
    intros H. injection H as <-. exact Hsame.
  - destruct (View.canSubmit (Page.ui p)); [|discriminate].
    destruct (handleSubmit_begin clock (Page.ui p)) as [[c request]|] eqn:E.
    + intros H. injection H as <-. simpl.
      destruct (handleSubmit_begin_sets _ _ _ _ E) as (_ & _ & _ & _ & Ht & _).
      destruct (handleSubmit_begin_appends _ _ _ _ E)
        as (_ & _ & _ & _ & _ & _ & _ & m & Hm & _).
      exists [m], []. now rewrite Hm, Ht, app_nil_r.
    + intros H. injection H as <-. exact Hsame.
  - destruct (Page.chatCalls p) as [|captured calls]; [discriminate|].
    intros H. injection H as <-. simpl.
    destruct (handleSubmit_resume_appends captured fetched clock (Page.ui p))
      as (m & traitData & Hm & _ & Ht).
    now exists [m], traitData.
  - destruct (View.canGeneratePersona (Page.ui p)); [|discriminate].
    unfold generatePersona_begin.
    destruct (ChatState.backendState (Chat.chatState (Page.ui p)));
      intros H; injection H as <-; exact Hsame.
  - destruct (Page.personaCalls p) as [|n]; [discriminate|].
    intros H. injection H as <-. simpl.
    destruct (generatePersona_resume_sets fetched (Page.ui p))
      as (_ & _ & _ & _ & ->).
    exact Hsame.
  - destruct (Chat.showPersonaPopup (Page.ui p)); [|discriminate].
    intros H. injection H as <-. exact Hsame.
Qed.

(** X5.  Along every run of the page the transcript and the assessment
    history only grow at their end: what was there stays, unchanged and in
    place. *)
Theorem run_only_appends (events : list Page.Event) (p p' : Page.t) :
  Page.run events p = Some p' ->
  exists messages traitData,
    ChatState.messages (Chat.chatState (Page.ui p'))
    = ChatState.messages (Chat.chatState (Page.ui p)) ++ messages
    /\ ChatState.traitData (Chat.chatState (Page.ui p'))
       = ChatState.traitData (Chat.chatState (Page.ui p)) ++ traitData.
Proof.
  revert p. induction events as [|e events IH]; simpl; intros p Hrun.
  - injection Hrun as <-. exists [], []. now rewrite !app_nil_r.
  - destruct (Page.step e p) as [p1|] eqn:E; [|discriminate].
    destruct (step_appends _ _ _ E) as (ms1 & ts1 & Hm1 & Ht1).
    destruct (IH p1 Hrun) as (ms & ts & Hm & Ht).
    exists (ms1 ++ ms), (ts1 ++ ts).
    now rewrite Hm, Ht, Hm1, Ht1, !app_assoc.
Qed.

Lemma run_only_appends_witness :
  exists p',
    Page.run
      (Sample.turn "Hi" (Js.Resolved 200 (inr (Sample.uniform 1))))
      Page.initial = Some p'
    /\ List.length (ChatState.messages (Chat.chatState (Page.ui p'))) = 2
    /\ exists messages traitData,
         ChatState.messages (Chat.chatState (Page.ui p'))
         = ChatState.messages (Chat.chatState (Page.ui Page.initial))
           ++ messages
         /\ ChatState.traitData (Chat.chatState (Page.ui p'))
            = ChatState.traitData (Chat.chatState (Page.ui Page.initial))
              ++ traitData.
Proof.
  eexists. split; [vm_compute; reflexivity|]. split; [reflexivity|].
  apply (run_only_appends
           (Sample.turn "Hi" (Js.Resolved 200 (inr (Sample.uniform 1))))
           Page.initial).
  vm_compute. reflexivity.
Defined.

Lemma takesTurns_snoc (c c' : Chat.t) (m : Message.t) :
  takesTurns c ->
  ChatState.messages (Chat.chatState c')
  = ChatState.messages (Chat.chatState c) ++ [m] ->
  Message.type m
  = speakerAt (List.length (ChatState.messages (Chat.chatState c))) ->
  Chat.isLoading c' = negb (Chat.isLoading c) ->
  takesTurns c'.
Proof.
  intros [Hat Hlen] Hm Ht Hl. split.
  - intros i x. rewrite Hm.
    destruct (Nat.lt_ge_cases i
                (List.length (ChatState.messages (Chat.chatState c))))
      as [Hlt|Hge].
    + rewrite nth_error_app1 by assumption. apply Hat.
    + rewrite nth_error_app2 by assumption.
      destruct (i - _) as [|[|k]] eqn:E; simpl; try discriminate.
      intros H. injection H as <-. rewrite Ht. f_equal. lia.
  - rewrite Hm, length_app, Hl. simpl. rewrite Nat.add_1_r, Nat.even_succ.
    rewrite <- Nat.negb_even, Hlen. reflexivity.
Qed.

Lemma takesTurns_same (c c' : Chat.t) :
  takesTurns c ->
  Chat.chatState c' = Chat.chatState c ->
  Chat.isLoading c' = Chat.isLoading c ->
  takesTurns c'.
Proof. intros [Hat Hlen] Hc Hl. unfold takesTurns. now rewrite Hc, Hl. Qed.

Lemma takesTurns_step (e : Page.Event) (p p' : Page.t) :
  consistent p ->
  takesTurns (Page.ui p) ->
  Page.step e p = Some p' ->
  takesTurns (Page.ui p').
Proof.
  intros [_ Hc] Hturns.
  destruct e as [uid sid|value|clock|fetched clock| |fetched| ]; simpl.
  - intros H. injection H as <-. now apply takesTurns_same with (Page.ui p).
  - destruct (View.canType (Page.ui p)); [|discriminate].
    intros H. injection H as <-. now apply takesTurns_same with (Page.ui p).
  - destruct (View.canSubmit (Page.ui p)); [|discriminate].
    destruct (handleSubmit_begin clock (Page.ui p)) as [[c request]|] eqn:E.
    + intros H. injection H as <-. simpl.
      destruct (handleSubmit_begin_sets _ _ _ _ E) as (Hl & _).
      destruct (handleSubmit_begin_appends _ _ _ _ E)
        as (Hl0 & _ & _ & _ & _ & _ & _ & m & Hm & Ht & _).
      apply takesTurns_snoc with (Page.ui p) m; try assumption.
      * destruct Hturns as [_ Hlen]. unfold speakerAt.
        now rewrite Hlen, Hl0.
      * now rewrite Hl, Hl0.
    + intros H. now injection H as <-.
  - destruct (Page.chatCalls p) as [|captured [|? ?]];
      [discriminate| |contradiction].
    destruct Hc as [Hl0 _].
    intros H. injection H as <-. simpl.
    destruct (handleSubmit_resume_appends captured fetched clock (Page.ui p))
      as (m & traitData & Hm & Ht & _).
    destruct (handleSubmit_resume_sets captured fetched clock (Page.ui p))
      as (Hl & _).
    apply takesTurns_snoc with (Page.ui p) m; try assumption.
    * destruct Hturns as [_ Hlen]. unfold speakerAt.
      now rewrite Hlen, Hl0.
    * now rewrite Hl, Hl0.
  - destruct (View.canGeneratePersona (Page.ui p)); [|discriminate].
    unfold generatePersona_begin.
    destruct (ChatState.backendState (Chat.chatState (Page.ui p)));
      intros H; injection H as <-; now apply takesTurns_same with (Page.ui p).
  - destruct (Page.personaCalls p) as [|n]; [discriminate|].
    intros H. injection H as <-. simpl.
    destruct (generatePersona_resume_sets fetched (Page.ui p))
      as (_ & _ & _ & Hl & Hcs).
    now apply takesTurns_same with (Page.ui p).
  - destruct (Chat.showPersonaPopup (Page.ui p)); [|discriminate].
    intros H. injection H as <-. now apply takesTurns_same with (Page.ui p).
Qed.

Lemma takesTurns_run (events : list Page.Event) :
  forall p p',
    consistent p -> takesTurns (Page.ui p) ->
    Page.run events p = Some p' -> takesTurns (Page.ui p').
Proof.
  induction events as [|e events IH]; simpl; intros p p' Hc Ht Hrun.
  - now injection Hrun as <-.
  - destruct (Page.step e p) as [p1|] eqn:E; [|discriminate].
    eauto using consistent_step, takesTurns_step.
Qed.

Lemma reachable_takesTurns (p : Page.t) :
  Page.Reachable p -> takesTurns (Page.ui p).
Proof.
  intros [events Hrun].
  apply (takesTurns_run events Page.initial p);
    [apply consistent_initial| |assumption].
  split; [|reflexivity]. intros [|i] m; discriminate.
Qed.

(** X6.  In every state the page reaches the transcript takes turns: the
    messages at even positions are the user's, those at odd positions the
    assistant's, and the transcript ends with a message of the user exactly
    while a chat call is in flight ([isLoading]). *)
Theorem transcript_takes_turns (p : Page.t) :
  Page.Reachable p ->
  (forall i m,
      nth_error (ChatState.messages (Chat.chatState (Page.ui p))) i = Some m ->
      Message.type m = if Nat.even i then user else ai)
  /\ Nat.even
       (List.length (ChatState.messages (Chat.chatState (Page.ui p))))
     = negb (Chat.isLoading (Page.ui p)).
Proof. apply reachable_takesTurns. Qed.

Lemma reachable_awaiting : Page.Reachable Sample.awaiting.
Proof.
  exists [Page.Typed "Hi"; Page.Submitted Sample.clock].
  vm_compute. reflexivity.
Qed.

Lemma transcript_takes_turns_witness :
  Page.Reachable Sample.awaiting
  /\ Chat.isLoading (Page.ui Sample.awaiting) = true
  /\ Nat.even
       (List.length
          (ChatState.messages (Chat.chatState (Page.ui Sample.awaiting))))
     = false.
Proof.
  split; [apply reachable_awaiting|]. split; [reflexivity|].
  apply (transcript_takes_turns Sample.awaiting reachable_awaiting).
Defined.

(** X7.  In every state the page reaches at most one chat call and at most
    one persona call are in flight: a chat call exactly while [isLoading]
    is set, a persona call exactly while [isGeneratingPersona] is set. *)
Theorem calls_in_flight (p : Page.t) :
  Page.Reachable p ->
  List.length (Page.chatCalls p)
  = (if Chat.isLoading (Page.ui p) then 1 else 0)
  /\ Page.personaCalls p
     = (if Chat.isGeneratingPersona (Page.ui p) then 1 else 0).
Proof.
  intros Hr. apply reachable_consistent in Hr as [Hp Hc].
  split; [|assumption].
  destruct (Page.chatCalls p) as [|captured [|? ?]]; [| |contradiction].
  - now rewrite Hc.
  - destruct Hc as [-> _]. reflexivity.
Qed.

Lemma calls_in_flight_witness :
  Page.Reachable Sample.awaiting
  /\ List.length (Page.chatCalls Sample.awaiting) = 1
  /\ Page.personaCalls Sample.awaiting = 0.
Proof.
  split; [apply reachable_awaiting|].
  destruct (calls_in_flight Sample.awaiting reachable_awaiting) as [Hc Hp].
  split; [exact Hc|exact Hp].
Defined.

(** ** What is sent to the backend *)

(** X8.  The backend state is echoed verbatim: once a chat response has
    been handled on the success path, the next chat request and the next
    persona request both carry exactly the [updated_state] it delivered,
    whatever else has changed in the component. *)
Theorem backend_state_is_echoed
    (captured : ChatState.t) (status : Z) (data : ChatData.t)
    (clock : Clock.t) (c next : Chat.t) :
  Js.ok status = true ->
  Chat.chatState next
  = Chat.chatState
      (handleSubmit_resume captured (Js.Resolved status (inr data)) clock c) ->
  (forall clock' c' request,
      handleSubmit_begin clock' next = Some (c', request) ->
      ChatRequest.state request = Some (ChatData.updated_state data))
  /\ exists body,
       generatePersona_begin next
       = (Setters.setIsGeneratingPersona true next, PostPersona body)
       /\ PersonaRequest.state body = Some (ChatData.updated_state data).
Proof.
  intros Hok Hnext.
  assert (ChatState.backendState (Chat.chatState next)
          = Some (ChatData.updated_state data)) as Hb.
  { rewrite Hnext. unfold handleSubmit_resume. rewrite Hok. cbn [negb].
    now rewrite handleSubmit_success_chatState. }
  split.
  - intros clock' c' request H.
    apply handleSubmit_begin_appends in H as (_ & _ & _ & -> & _).
    exact Hb.
  - unfold generatePersona_begin. rewrite Hb. eexists. split; reflexivity.
Qed.

Lemma backend_state_is_echoed_witness :
  let answered :=
    handleSubmit_resume (Chat.chatState Chat.initial)
      (Js.Resolved 200 (inr (Sample.uniform 1))) Sample.clock Chat.initial in
  let next := Setters.setInput "And then?" answered in
  exists c' request,
    handleSubmit_begin Sample.clock next = Some (c', request)
    /\ ChatRequest.state request
       = Some (ChatData.updated_state (Sample.uniform 1)).
Proof.
  cbv zeta. eexists. eexists. split; [reflexivity|].
  destruct (backend_state_is_echoed (Chat.chatState Chat.initial) 200
              (Sample.uniform 1) Sample.clock Chat.initial
              (Setters.setInput "And then?"
                 (handleSubmit_resume (Chat.chatState Chat.initial)
                    (Js.Resolved 200 (inr (Sample.uniform 1))) Sample.clock
                    Chat.initial))
              eq_refl eq_refl) as [Hchat _].
  apply (Hchat Sample.clock _ _ eq_refl).
Defined.

Lemma trimStart_blank (s : string) :
  blank s = true -> Js.trimStart s = EmptyString.
Proof.
  unfold blank. induction s as [|c s IH]; simpl; [reflexivity|].
  intros H. apply andb_true_iff in H as [Hc Hs]. now rewrite Hc, IH.
Qed.

(** X9.  A submission whose input is empty or made of white space only, or
    that arrives while a chat call is in flight, does nothing: the handler
    returns before touching the state and before any request. *)
Theorem blank_input_is_not_sent (clock : Clock.t) (c : Chat.t) :
  blank (Chat.input c) = true \/ Chat.isLoading c = true ->
  handleSubmit_begin clock c = None.
Proof.
  unfold handleSubmit_begin, Js.trim. intros [H|H].
  - now rewrite (trimStart_blank _ H).
  - rewrite H. now rewrite orb_true_r.
Qed.

Lemma blank_input_is_not_sent_witness :
  let c := Setters.setInput (" " ++ newline)%string Chat.initial in
  blank (Chat.input c) = true
  /\ handleSubmit_begin Sample.clock c = None.
Proof.
  cbv zeta. split; [reflexivity|].
  apply (blank_input_is_not_sent Sample.clock
           (Setters.setInput (" " ++ newline)%string Chat.initial)).
  left. reflexivity.
Defined.

Lemma trimEnd_idempotent (s : string) :
  Js.trimEnd (Js.trimEnd s) = Js.trimEnd s.
Proof.
  induction s as [|c s IH]; simpl; [reflexivity|].
  destruct (Js.isWhiteSpace c) eqn:Hc; simpl.
  - destruct (Js.trimEnd s =? EmptyString)%string eqn:E; simpl;
      [reflexivity|].
    now rewrite Hc, IH, E.
  - now rewrite Hc, IH.
Qed.

Lemma trimStart_fixed (s : string) :
  match s with
  | EmptyString => True
  | String c _ => Js.isWhiteSpace c = false
  end ->
  Js.trimStart s = s.
Proof. destruct s as [|c s]; simpl; [reflexivity|]. now intros ->. Qed.

Lemma trimStart_head (s : string) :
  match Js.trimStart s with
  | EmptyString => True
  | String c _ => Js.isWhiteSpace c = false
  end.
Proof.
  induction s as [|c s IH]; simpl; [exact I|].
  destruct (Js.isWhiteSpace c) eqn:Hc; [assumption|]. simpl. exact Hc.
Qed.

Lemma trimEnd_head (s : string) :
  match s with
  | EmptyString => True
  | String c _ => Js.isWhiteSpace c = false
  end ->
  match Js.trimEnd s with
  | EmptyString => True
  | String c _ => Js.isWhiteSpace c = false
  end.
Proof.
  destruct s as [|c s]; simpl; [auto|]. intros Hc. rewrite Hc. simpl.
  exact Hc.
Qed.

Lemma trim_idempotent (s : string) : Js.trim (Js.trim s) = Js.trim s.
Proof.
  unfold Js.trim.
  rewrite (trimStart_fixed (Js.trimEnd (Js.trimStart s))).
  - apply trimEnd_idempotent.
  - apply trimEnd_head, trimStart_head.
Qed.

(** X10.  When a submission goes through, the message sent to the backend
    is the trimmed input: it is not empty, trimming it again changes
    nothing, and it is also the content of the user message appended to the
    transcript; the input box is emptied. *)
Theorem sent_message_is_trimmed (clock : Clock.t) (c c' : Chat.t)
    (request : ChatRequest.t) :
  handleSubmit_begin clock c = Some (c', request) ->
  ChatRequest.message request = Js.trim (Chat.input c)
  /\ ChatRequest.message request <> EmptyString
  /\ Js.trim (ChatRequest.message request) = ChatRequest.message request
  /\ Chat.input c' = EmptyString
  /\ exists m,
       ChatState.messages (Chat.chatState c')
       = ChatState.messages (Chat.chatState c) ++ [m]
       /\ Message.type m = user
       /\ Message.content m = Some (ChatRequest.message request).
Proof.
  intros H.
  apply handleSubmit_begin_appends in H
    as (_ & Hne & Hmsg & _ & _ & _ & Hin & m & Hm & Ht & Hc).
  rewrite Hmsg.
  repeat split; try assumption; [apply trim_idempotent|].
  now exists m.
Qed.

Lemma sent_message_is_trimmed_witness :
  let c := Setters.setInput "  I save a little each month. " Chat.initial in
  exists c' request,
    handleSubmit_begin Sample.clock c = Some (c', request)
    /\ ChatRequest.message request = "I save a little each month."%string.
Proof.
  cbv zeta. eexists. eexists. split; [reflexivity|].
  destruct (sent_message_is_trimmed Sample.clock
              (Setters.setInput "  I save a little each month. " Chat.initial)
              _ _ eq_refl) as [Hmsg _].
  exact Hmsg.
Defined.

(** X11.  The ids given by [startSession] are used whatever the status of
    its response: once a body has decoded, also under a status outside
    200-299, the next chat request and the next persona request carry its
    [user_id] and [session_id]; when the call is rejected or the body does
    not decode the state is left as it was. *)
Theorem session_ids_are_sent (status : Z) (data : SessionData.t)
    (error : Js.Thrown) (c : Chat.t) :
  let started := startSession_resume (Js.Resolved status (inr data)) c in
  (forall clock c' request,
      handleSubmit_begin clock started = Some (c', request) ->
      ChatRequest.user_id request = SessionData.user_id data
      /\ ChatRequest.session_id request = SessionData.session_id data)
  /\ (forall body,
         snd (generatePersona_begin started) = PostPersona body ->
         PersonaRequest.user_id body = SessionData.user_id data
         /\ PersonaRequest.session_id body = SessionData.session_id data)
  /\ Chat.chatState started = Chat.chatState c
  /\ startSession_resume (Js.Rejected error) c = c
  /\ startSession_resume (Js.Resolved status (inl error)) c = c.
Proof.
  cbv zeta. split; [|split; [|repeat split]].
  - intros clock c' request H.
    apply handleSubmit_begin_appends in H as (_ & _ & _ & _ & -> & -> & _).
    split; reflexivity.
  - intros body. unfold generatePersona_begin. simpl.
    destruct (ChatState.backendState (Chat.chatState c)); simpl;
      [|discriminate].
    intros H. injection H as <-. split; reflexivity.
Qed.

Lemma session_ids_are_sent_witness :
  let data := SessionData.Build (Some "u-7"%string) (Some "s-7"%string) in
  let started :=
    startSession_resume (Js.Resolved 500 (inr data))
      (Setters.setInput "Hi" Chat.initial) in
  Js.ok 500 = false
  /\ exists c' request,
       handleSubmit_begin Sample.clock started = Some (c', request)
       /\ ChatRequest.user_id request = Some "u-7"%string
       /\ ChatRequest.session_id request = Some "s-7"%string.
Proof.
  cbv zeta. split; [reflexivity|]. eexists. eexists.
  split; [reflexivity|].
  destruct (session_ids_are_sent 500
              (SessionData.Build (Some "u-7"%string) (Some "s-7"%string))
              (Js.OtherValue "unused")
              (Setters.setInput "Hi" Chat.initial)) as [Hchat _].
  apply (Hchat Sample.clock _ _ eq_refl).
Defined.

(** ** When the persona call fails *)

(** X12.  When the persona call is rejected, answers with a status outside
    200-299 or with a body that does not decode, the handler alerts and
    only clears [isGeneratingPersona]: nothing else changes, in particular
    the conversation is not terminated and no persona is stored. *)
Theorem persona_failure_changes_nothing
    (fetched : Js.Fetched PersonaData.t) (c : Chat.t) :
  personaFailed fetched = true ->
  generatePersona_resume fetched c
  = (Setters.setIsGeneratingPersona false c,
     Alert "Failed to generate persona. Please try again.").
Proof.
  unfold generatePersona_resume.
  destruct fetched as [error|status [error|data]]; simpl;
    try reflexivity; destruct (Js.ok status); simpl;
      try reflexivity; discriminate.
Qed.

Lemma persona_failure_changes_nothing_witness :
  let fetched : Js.Fetched PersonaData.t :=
    Js.Resolved 404 (inr (PersonaData.Build "Not found")) in
  personaFailed fetched = true
  /\ Chat.isTerminated
       (fst (generatePersona_resume fetched Sample.midConversation)) = false
  /\ Chat.personaData
       (fst (generatePersona_resume fetched Sample.midConversation))
     = EmptyString.
Proof.
  cbv zeta. split; [reflexivity|].
  rewrite (persona_failure_changes_nothing
             (Js.Resolved 404 (inr (PersonaData.Build "Not found")))
             Sample.midConversation eq_refl).
  split; reflexivity.
Defined.

(** ** More on [getLatestTraitScores] *)

Section Summary.

Local Open Scope Q_scope.









End Summary.

(** X14.  [getLatestTraitScores] lists at most six records, one per known
    trait at most, however long the assessment history is. *)
Theorem at_most_six_traits_listed (chatState : ChatState.t) :
  List.length (getLatestTraitScores chatState) <= 6.
Proof.
  rewrite <- (length_map TraitScore.trait).
  change 6 with (List.length traits).
  apply NoDup_incl_length.
  - rewrite getLatestTraitScores_traits. apply fold_accumulate_keys_NoDup.
  - intros t _. destruct t; simpl; tauto.
Qed.

(** ** Where the assessment cards are shown *)

Lemma messageTraitAssessments_In (chatState : ChatState.t)
    (message : Message.t) (index : nat) (d : TraitData.t) :
  In d (messageTraitAssessments chatState message index) ->
  Message.type message = user
  /\ (index + 2 = List.length (ChatState.messages chatState)
      \/ index + 1 = List.length (ChatState.messages chatState))
  /\ In d (ChatState.traitData chatState)
  /\ exists timestamp,
       TraitData.timestamp d = Some timestamp
       /\ (Message.timestamp message < timestamp)%Z.
Proof.
  unfold messageTraitAssessments. intros H.
  apply filter_In in H as [Hin H].
  destruct (TraitData.timestamp d) as [ts|]; [|discriminate].
  apply andb_true_iff in H as [H Hw]. apply andb_true_iff in H as [H Hu].
  apply andb_true_iff in H as [Hlt _].
  apply Z.ltb_lt in Hlt. apply orb_true_iff in Hw.
  rewrite !Z.eqb_eq in Hw.
  repeat split.
  - now destruct (Message.type message).
  - lia.
  - assumption.
  - now exists ts.
Qed.

(** X15.  In every state the page reaches, assessment cards are rendered
    under one message at most, the latest message of the user: the last
    message of the transcript while a chat call is in flight, the one
    before the last otherwise. *)
Theorem cards_under_latest_user_message (p : Page.t) (index : nat)
    (message : Message.t) :
  let chatState := Chat.chatState (Page.ui p) in
  Page.Reachable p ->
  nth_error (ChatState.messages chatState) index = Some message ->
  cardsRendered chatState message index = true ->
  if Chat.isLoading (Page.ui p)
  then index + 1 = List.length (ChatState.messages chatState)
  else index + 2 = List.length (ChatState.messages chatState).
Proof.
  intros chatState Hr Hnth Hcards.
  destruct (reachable_takesTurns p Hr) as [Hat Hlen].
  fold chatState in Hat, Hlen.
  apply Hat in Hnth. unfold cardsRendered in Hcards.
  apply andb_true_iff in Hcards as [_ Hsome]. apply Nat.ltb_lt in Hsome.
  destruct (messageTraitAssessments chatState message index) as [|d l] eqn:E;
    [simpl in Hsome; lia|].
  assert (In d (messageTraitAssessments chatState message index)) as Hd
    by (rewrite E; now left).
  apply messageTraitAssessments_In in Hd as (Hu & Hw & _).
  rewrite Hu in Hnth. unfold speakerAt in Hnth.
  destruct (Nat.even index) eqn:Hev; [|discriminate].
  destruct Hw as [Hw|Hw]; rewrite <- Hw in Hlen |- *.
  - rewrite Nat.even_add, Hev in Hlen. simpl in Hlen.
    now destruct (Chat.isLoading (Page.ui p)).
  - rewrite Nat.even_add, Hev in Hlen. simpl in Hlen.
    now destruct (Chat.isLoading (Page.ui p)).
Qed.

Lemma cards_under_latest_user_message_witness :
  let chatState := Chat.chatState (Page.ui Sample.answered) in
  exists message,
    Page.Reachable Sample.answered
    /\ nth_error (ChatState.messages chatState) 0 = Some message
    /\ cardsRendered chatState message 0 = true
    /\ Chat.isLoading (Page.ui Sample.answered) = false
    /\ 0 + 2 = List.length (ChatState.messages chatState).
Proof.
  cbv zeta. eexists.
  assert (Page.Reachable Sample.answered) as Hr.
  { exists [ Page.Typed "Hi"; Page.Submitted Sample.clock;
             Page.ChatSettled (Js.Resolved 200 (inr (Sample.uniform 1)))
               Sample.later ].
    vm_compute. reflexivity. }
  split; [exact Hr|]. split; [reflexivity|]. split; [reflexivity|].
  split; [reflexivity|].
  apply (cards_under_latest_user_message Sample.answered 0 _ Hr eq_refl
           eq_refl).
Defined.

Lemma filter_all {A : Type} (f : A -> bool) (l : list A) :
  (forall x, In x l -> f x = true) -> filter f l = l.
Proof.
  induction l as [|x l IH]; simpl; intros H; [reflexivity|].
  rewrite (H x (or_introl eq_refl)). f_equal. apply IH. auto.
Qed.

Lemma filter_none {A : Type} (f : A -> bool) (l : list A) :
  (forall x, In x l -> f x = false) -> filter f l = [].
Proof.
  induction l as [|x l IH]; simpl; intros H; [reflexivity|].
  rewrite (H x (or_introl eq_refl)). apply IH. auto.
Qed.

(** X16.  After a chat turn that succeeds, with the assessments held before
    stamped no later than the user's message and [currentTime] read after
    it, the cards shown under the user's message are exactly the
    assessments this turn materialized, in their order. *)
Theorem cards_show_the_new_assessments
    (c c1 : Chat.t) (clock0 clock1 : Clock.t) (request : ChatRequest.t)
    (status : Z) (data : ChatData.t) :
  let before := Chat.chatState c in
  let c2 :=
    handleSubmit_resume before (Js.Resolved status (inr data)) clock1 c1 in
  let index := List.length (ChatState.messages before) in
  handleSubmit_begin clock0 c = Some (c1, request) ->
  Js.ok status = true ->
  (forall d timestamp,
      In d (ChatState.traitData before) ->
      TraitData.timestamp d = Some timestamp ->
      (timestamp <= Clock.stamp clock0)%Z) ->
  (Clock.stamp clock0 < Clock.currentTime clock1)%Z ->
  exists message,
    nth_error (ChatState.messages (Chat.chatState c2)) index = Some message
    /\ Message.type message = user
    /\ messageTraitAssessments (Chat.chatState c2) message index
       = materialized before data clock1.
Proof.
  intros before c2 index Hbegin Hok Hold Hclock.
  destruct (handleSubmit_begin_sets _ _ _ _ Hbegin)
    as (_ & _ & _ & _ & Htd & _).
  assert (exists m,
             ChatState.messages (Chat.chatState c1)
             = ChatState.messages before ++ [m]
             /\ Message.type m = user
             /\ Message.timestamp m = Clock.stamp clock0) as (m & Hm & Hu & Hts).
  { unfold handleSubmit_begin in Hbegin.
    destruct ((Js.trim (Chat.input c) =? EmptyString)%string
              || Chat.isLoading c); [discriminate|].
    injection Hbegin as <- _. eexists. repeat split. }
  assert (Chat.chatState c2
          = updateChatState before data clock1 (Chat.chatState c1)) as Hc2.
  { unfold c2, handleSubmit_resume. rewrite Hok. cbn [negb].
    apply handleSubmit_success_chatState. }
  exists m. rewrite Hc2. unfold updateChatState. cbn [ChatState.messages].
  split; [|split; [assumption|]].
  - rewrite Hm, <- app_assoc. simpl.
    rewrite nth_error_app2 by (unfold index; lia).
    unfold index. now rewrite Nat.sub_diag.
  - unfold messageTraitAssessments.
    cbn [ChatState.messages ChatState.traitData].
    rewrite Htd, filter_app, Hm, !length_app. simpl List.length.
    fold before index. fold (materialized before data clock1).
    rewrite filter_none, filter_all; [reflexivity| |].
    + intros d Hd. apply In_nth_error in Hd as [k Hk].
      unfold materialized in Hk. rewrite extractNewTraitData_listing in Hk.
      apply listing_nth in Hk as (_ & i & Hi & Hd).
      unfold pushedOf, pushed in Hi. apply filter_In in Hi as [_ Hv].
      rewrite Hd. cbn [traitDataAt TraitData.timestamp TraitData.sentence
                         TraitData.score TraitData.rationale].
      unfold hasSentenceOrScore in Hv. rewrite Hv, Hu, Hts.
      cbn [orb]. rewrite !andb_true_r.
      apply andb_true_iff. split; [apply Z.ltb_lt; lia|].
      apply orb_true_iff. left. apply Z.eqb_eq. lia.
    + intros d Hd.
      destruct (TraitData.timestamp d) as [ts|] eqn:E; [|reflexivity].
      specialize (Hold d ts Hd E).
      replace (Message.timestamp m <? ts)%Z with false; [reflexivity|].
      symmetry. apply Z.ltb_ge. lia.
Qed.

Lemma cards_show_the_new_assessments_witness :
  let c := Setters.setInput "Hi" Chat.initial in
  let later := Clock.Build 2000 2000 2000 in
  exists c1 request message,
    handleSubmit_begin Sample.clock c = Some (c1, request)
    /\ (Clock.stamp Sample.clock < Clock.currentTime later)%Z
    /\ messageTraitAssessments
         (Chat.chatState
            (handleSubmit_resume (Chat.chatState c)
               (Js.Resolved 200 (inr (Sample.uniform 2))) later c1))
         message 0
       = materialized (Chat.chatState c) (Sample.uniform 2) later
    /\ List.length (materialized (Chat.chatState c) (Sample.uniform 2) later)
       = 2.
Proof.
  cbv zeta.
  destruct (cards_show_the_new_assessments
              (Setters.setInput "Hi" Chat.initial)
              _ Sample.clock (Clock.Build 2000 2000 2000) _ 200
              (Sample.uniform 2) eq_refl eq_refl)
    as (message & _ & _ & Hcards).
  - intros d timestamp [].
  - reflexivity.
  - eexists. eexists. exists message.
    split; [reflexivity|]. split; [reflexivity|].
    split; [exact Hcards|reflexivity].
Defined.

(** ** [getTraitDisplayName] *)

Lemma split_nonempty (sep : ascii) (s : string) : JsString.split sep s <> [].
Proof.
  destruct s as [|c s]; simpl; [discriminate|].
  destruct (Ascii.eqb c sep); [discriminate|].
  destruct (JsString.split sep s); discriminate.
Qed.

Lemma join_cons (sep word : string) (words : list string) :
  words <> [] ->
  JsString.join sep (word :: words)
  = (word ++ sep ++ JsString.join sep words)%string.
Proof. destruct words; [congruence|reflexivity]. Qed.

(** The words after the first are capitalized alike wherever the display
    starts; the first word is capitalized only at a word start. *)
Lemma getTraitDisplayName_words (s : string) :
  match JsString.split "_" s with
  | [] => False
  | word :: words =>
      let capitalize word :=
        (JsString.toUpperCase (JsString.charAt0 word)
         ++ JsString.slice1 word)%string in
      JsString.join " " (capitalize word :: map capitalize words)
      = displayFrom true s
      /\ JsString.join " " (word :: map capitalize words)
         = displayFrom false s
  end.
Proof.
  induction s as [|c s IH]; [split; reflexivity|].
  cbn [JsString.split displayFrom].
  destruct (Ascii.eqb c "_") eqn:E.
  - destruct (JsString.split "_" s) as [|word words]; [contradiction|].
    destruct IH as [IH _]. cbv zeta in *.
    cbn [map]. rewrite <- IH.
    split; (rewrite join_cons; [reflexivity|discriminate]).
  - destruct (JsString.split "_" s) as [|word words]; [contradiction|].
    destruct IH as [_ IH]. cbv zeta in *.
    destruct words as [|word' words].
    + cbn [map JsString.join] in *. rewrite <- IH. split; reflexivity.
    + cbn [map] in *. rewrite join_cons in IH by discriminate.
      split; (rewrite join_cons; [|discriminate]);
        destruct word; cbn; now rewrite <- ?IH.
Qed.

Lemma displayFrom_length (wordStart : bool) (s : string) :
  String.length (displayFrom wordStart s) = String.length s.
Proof.
  induction s as [|c s IH] in wordStart |- *; simpl; [reflexivity|].
  destruct (Ascii.eqb c "_"); simpl; now rewrite IH.
Qed.

Lemma toUpperCaseChar_not_underscore (c : ascii) :
  Ascii.eqb c "_" = false ->
  Ascii.eqb (JsString.toUpperCaseChar c) "_" = false.
Proof.
  intros H. unfold JsString.toUpperCaseChar.
  destruct ((97 <=? N_of_ascii c) && (N_of_ascii c <=? 122))%N eqn:E;
    [|assumption].
  apply andb_true_iff in E as [Hlo Hhi].
  apply N.leb_le in Hlo, Hhi.
  apply Ascii.eqb_neq. intros Heq.
  apply (f_equal N_of_ascii) in Heq.
  rewrite N_ascii_embedding in Heq by lia.
  change (N_of_ascii "_") with 95%N in Heq. lia.
Qed.

Lemma displayFrom_no_underscore (wordStart : bool) (s : string) :
  forallb (fun c => negb (Ascii.eqb c "_"))
    (list_ascii_of_string (displayFrom wordStart s)) = true.
Proof.
  induction s as [|c s IH] in wordStart |- *; simpl; [reflexivity|].
  destruct (Ascii.eqb c "_") eqn:E; simpl; [apply IH|].
  rewrite IH, andb_true_r.
  destruct wordStart; [|now rewrite E].
  now rewrite toUpperCaseChar_not_underscore.
Qed.

(** X17.  On an ASCII name [getTraitDisplayName] works character by
    character: every underscore becomes a space, the first character of
    the name and every character that follows an underscore is put in upper
    case, and the rest is kept; so the display name has the length of the
    name and no underscore. *)
Theorem getTraitDisplayName_by_character (trait : string) :
  JsString.isAscii trait = true ->
  getTraitDisplayName trait = displayFrom true trait
  /\ String.length (getTraitDisplayName trait) = String.length trait
  /\ forallb (fun c => negb (Ascii.eqb c "_"))
       (list_ascii_of_string (getTraitDisplayName trait)) = true.
Proof.
  intros _.
  assert (getTraitDisplayName trait = displayFrom true trait) as ->.
  { unfold getTraitDisplayName.
    pose proof (getTraitDisplayName_words trait) as H.
    destruct (JsString.split "_" trait) as [|word words]; [contradiction|].
    apply H. }
  split; [reflexivity|].
  split; [apply displayFrom_length|apply displayFrom_no_underscore].
Qed.

Lemma getTraitDisplayName_by_character_witness :
  JsString.isAscii (Trait_name reaction_to_external_events) = true
  /\ getTraitDisplayName (Trait_name reaction_to_external_events)
     = "Reaction To External Events"%string.
Proof.
  split; [reflexivity|].
  destruct (getTraitDisplayName_by_character
              (Trait_name reaction_to_external_events) eq_refl) as [-> _].
  reflexivity.
Defined.

(** ** The consent page *)

Lemma consent_run_state (events : list ConsentPage.Event) :
  forall consent,
    fst (ConsentPage.run events consent)
    = xorb consent (Nat.odd (toggles events)).
Proof.
  induction events as [|[] events IH]; intros consent; simpl.
  - now rewrite xorb_false_r.
  - rewrite IH. unfold toggles. simpl. fold (toggles events).
    rewrite Nat.odd_succ, <- Nat.negb_odd. unfold ConsentPage.onChange.
    now destruct consent, (Nat.odd (toggles events)).
  - destruct (ConsentPage.run events consent) eqn:E. simpl.
    specialize (IH consent). rewrite E in IH. exact IH.
Qed.

Lemma consent_run_routes (events : list ConsentPage.Event) :
  forall consent,
    Forall (fun route => route = "/chatbot"%string)
      (snd (ConsentPage.run events consent))
    /\ (consent = false -> toggles events = 0 ->
        snd (ConsentPage.run events consent) = []).
Proof.
  induction events as [|[] events IH]; intros consent; simpl.
  - split; [constructor|reflexivity].
  - split; [apply IH|]. unfold toggles. simpl. discriminate.
  - destruct (IH consent) as [Hall Hnone].
    destruct (ConsentPage.run events consent) as [consent' routes] eqn:E.
    simpl in *. unfold ConsentPage.handleSubmit. split.
    + destruct consent; [constructor; [reflexivity|]|]; assumption.
    + intros -> H. apply Hnone; [reflexivity|exact H].
Qed.

(** X18.  On the consent page, from the unchecked box: the box is checked
    after the events exactly when it was toggled an odd number of times;
    every route pushed is [/chatbot]; and as long as the box has not been
    toggled, submitting pushes nothing. *)
Theorem consent_gates_navigation (events : list ConsentPage.Event) :
  fst (ConsentPage.run events ConsentPage.initial) = Nat.odd (toggles events)
  /\ Forall (fun route => route = "/chatbot"%string)
       (snd (ConsentPage.run events ConsentPage.initial))
  /\ (toggles events = 0 ->
      snd (ConsentPage.run events ConsentPage.initial) = [])
  /\ ConsentPage.buttonDisabled
       (fst (ConsentPage.run events ConsentPage.initial))
     = Nat.even (toggles events).
Proof.
  pose proof (consent_run_state events ConsentPage.initial) as Hs.
  destruct (consent_run_routes events ConsentPage.initial) as [Hall Hnone].
  simpl in Hs. split; [assumption|]. split; [assumption|].
  split; [now apply Hnone|].
  unfold ConsentPage.buttonDisabled. rewrite Hs. apply Nat.negb_odd.
Qed.

Lemma consent_gates_navigation_witness :
  ConsentPage.run
    [ ConsentPage.Submitted; ConsentPage.Toggled; ConsentPage.Submitted ]
    ConsentPage.initial
  = (true, ["/chatbot"%string])
  /\ fst (ConsentPage.run
            [ ConsentPage.Submitted; ConsentPage.Toggled;
              ConsentPage.Submitted ]
            ConsentPage.initial)
     = Nat.odd 1.
Proof.
  split; [reflexivity|].
  apply (consent_gates_navigation
           [ ConsentPage.Submitted; ConsentPage.Toggled;
             ConsentPage.Submitted ]).
Defined.

(** ** Instances of the re-delivery and closure lemmas *)

Lemma redelivery_adds_nothing_when_scored_witness :
  let us := ChatData.updated_state (Sample.uniform 2) in
  List.length (sentencesOf us awareness) <= List.length (scoresOf us awareness)
  /\ existingCount awareness
       (materialized
          (reconcile (Chat.chatState Chat.initial) (Sample.uniform 2)
             Sample.clock)
          (Sample.uniform 2) Sample.later) = 0.
Proof.
  cbv zeta. split; [vm_compute; lia|].
  apply (redelivery_adds_nothing_when_scored (Chat.chatState Chat.initial)
           (Sample.uniform 2) Sample.clock Sample.later awareness).
  vm_compute. lia.
Defined.

Lemma reachable_success_reconciles_witness :
  Page.Reachable Sample.awaiting
  /\ Js.ok 200 = true
  /\ Page.step
       (Page.ChatSettled (Js.Resolved 200 (inr (Sample.uniform 1)))
          Sample.later)
       Sample.awaiting
     = Some Sample.answered
  /\ Chat.chatState (Page.ui Sample.answered)
     = reconcile (Chat.chatState (Page.ui Sample.awaiting)) (Sample.uniform 1)
         Sample.later.
Proof.
  assert (Page.Reachable Sample.awaiting) as Hr.
  { exists [Page.Typed "Hi"; Page.Submitted Sample.clock].
    vm_compute. reflexivity. }
  split; [exact Hr|]. split; [reflexivity|].
  assert (Page.step
            (Page.ChatSettled (Js.Resolved 200 (inr (Sample.uniform 1)))
               Sample.later)
            Sample.awaiting
          = Some Sample.answered) as Hstep by (vm_compute; reflexivity).
  split; [exact Hstep|].
  apply (reachable_success_reconciles Sample.awaiting Sample.answered 200
           (Sample.uniform 1) Sample.later Hr eq_refl Hstep).
Defined.
